(** * Intent-driven orchestration pipeline: a shallow embedding

    The Python sources embedded here are
    - [models/intent.py], [models/agent_response.py], [models/configuration.py]
    - [plugins/intent_plugin.py], [plugins/azure_openai_plugin.py],
      [plugins/m365_copilot_plugin.py], [plugins/synthesis_plugin.py]
    - [agent/orchestrator_agent.py]

    Coroutines are embedded by their outcome: an awaited call either returns
    a value or raises.  Calls that leave the repository (the completion
    service behind [kernel.invoke_prompt], the Graph client, the token
    exchange) are fields of the records [Kernel] and [AgentContext]; the
    functions of the Python library that are not written out ([json.loads],
    [str.lower]) are section variables.  A turn is embedded with the calls
    it makes ([Event]).  Logging is left out, except for the one log line
    whose arguments can raise; there is no clock: [asyncio.timeout] appears
    as the event of entering it and as the handler of [TimeoutError]. *)

From Stdlib Require Import List String Ascii ZArith NArith Bool Lia DecimalString.
Import ListNotations.
Open Scope list_scope.
Set Warnings "-register-all".

(* ================================================================= *)
(** ** Python text *)

(** A Python [str] is a sequence of Unicode code points. *)
Definition pystr := list N.

(** String literals of the source. *)
Definition py (s : string) : pystr := map N_of_ascii (list_ascii_of_string s).

Fixpoint str_eqb (a b : pystr) : bool :=
  match a, b with
  | [], [] => true
  | x :: a', y :: b' => N.eqb x y && str_eqb a' b'
  | _, _ => false
  end.

(** [len(s)] *)
Definition len {A} (l : list A) : Z := Z.of_nat (List.length l).

(** [str.isspace] on one code point: the characters CPython lists as
    whitespace ([_PyUnicode_IsWhitespace]). *)
Definition isspace (c : N) : bool :=
  ((9 <=? c) && (c <=? 13) || (28 <=? c) && (c <=? 32)
   || (c =? 133) || (c =? 160) || (c =? 5760)
   || (8192 <=? c) && (c <=? 8202)
   || (c =? 8232) || (c =? 8233) || (c =? 8239) || (c =? 8287)
   || (c =? 12288))%N.

Fixpoint lstrip (s : pystr) : pystr :=
  match s with
  | c :: s' => if isspace c then lstrip s' else s
  | [] => []
  end.

Definition rstrip (s : pystr) : pystr := rev (lstrip (rev s)).

(** [s.strip()] *)
Definition strip (s : pystr) : pystr := rstrip (lstrip s).

Fixpoint startswith (pat s : pystr) : bool :=
  match pat, s with
  | [], _ => true
  | p :: pat', c :: s' => N.eqb p c && startswith pat' s'
  | _ :: _, [] => false
  end.

(** [s.find(pat)]: index of the first occurrence, if any. *)
Fixpoint find (pat s : pystr) : option nat :=
  if startswith pat s then Some O
  else match s with
       | [] => None
       | _ :: s' => option_map S (find pat s')
       end.

(** [pat in s] *)
Definition contains (pat s : pystr) : bool :=
  match find pat s with Some _ => true | None => false end.

(** [str(n)] for an [int]. *)
Definition str_of_int (n : Z) : pystr := py (NilZero.string_of_int (Z.to_int n)).

(** Truth value of a [str]. *)
Definition nonempty {A} (l : list A) : bool :=
  match l with [] => false | _ :: _ => true end.

(* ================================================================= *)
(** ** Exceptions *)

(** The classes the handlers of the source tell apart.  A raised exception
    is tagged with the most specific of them it is an instance of;
    [Exception] stands for every other subclass of [Exception].  Objects that
    are only [BaseException]s (task cancellation) belong to the scheduler and
    are outside this embedding. *)
Inductive exn_class : Type :=
| KeyError
| ValueError
| JSONDecodeError
| TypeError
| AttributeError
| RuntimeError
| TimeoutError
| Exception.

Definition exn_class_eqb (a b : exn_class) : bool :=
  match a, b with
  | KeyError, KeyError | ValueError, ValueError
  | JSONDecodeError, JSONDecodeError | TypeError, TypeError
  | AttributeError, AttributeError | RuntimeError, RuntimeError
  | TimeoutError, TimeoutError | Exception, Exception => true
  | _, _ => false
  end.

(** [issubclass(c, d)]: [json.JSONDecodeError] derives from [ValueError],
    and everything derives from [Exception]. *)
Definition issubclass (c d : exn_class) : bool :=
  exn_class_eqb c d
  || match c, d with
     | JSONDecodeError, ValueError => true
     | _, Exception => true
     | _, _ => false
     end.

(** An exception object: its class and [str(e)]. *)
Record exn : Type := mk_exn { exn_cls : exn_class; exn_str : pystr }.

Definition isinstance (e : exn) (classes : list exn_class) : bool :=
  existsb (issubclass (exn_cls e)) classes.

Inductive outcome (A : Type) : Type :=
| Ok (a : A)
| Raise (e : exn).
Arguments Ok {A} a.
Arguments Raise {A} e.

Definition bind {A B} (c : outcome A) (k : A -> outcome B) : outcome B :=
  match c with
  | Ok a => k a
  | Raise e => Raise e
  end.

Notation "x <- c ;; k" := (bind c (fun x => k))
  (at level 61, c at next level, right associativity).

(** [try: body  except (classes) as e: handler e] *)
Definition try_except {A} (body : outcome A) (classes : list exn_class)
           (handler : exn -> outcome A) : outcome A :=
  match body with
  | Ok a => Ok a
  | Raise e => if isinstance e classes then handler e else Raise e
  end.

(** A list comprehension whose element expression may raise. *)
Fixpoint comprehension {A B} (f : A -> outcome B) (l : list A) : outcome (list B) :=
  match l with
  | [] => Ok []
  | a :: l' => b <- f a ;; bs <- comprehension f l' ;; Ok (b :: bs)
  end.

(* ================================================================= *)
(** ** Python values *)

(** The values [json.loads] produces. A number is carried by its lexeme: the
    program never computes with one. An object is the decoded [dict], listed
    by key. *)
Inductive json : Type :=
| JNull
| JBool (b : bool)
| JNumber (lexeme : pystr)
| JString (s : pystr)
| JArray (items : list json)
| JObject (fields : list (pystr * json)).

(** [d.get(key)] on a decoded object. *)
Fixpoint dict_get (key : pystr) (fields : list (pystr * json)) : option json :=
  match fields with
  | [] => None
  | (k, v) :: rest => if str_eqb k key then Some v else dict_get key rest
  end.

(** [for item in data]: a list yields its elements, a dict its keys, a str
    its characters; nothing else is iterable. *)
Definition iterate (data : json) : outcome (list json) :=
  match data with
  | JArray items => Ok items
  | JObject fields => Ok (map (fun kv => JString (fst kv)) fields)
  | JString s => Ok (map (fun c => JString [c]) s)
  | _ => Raise (mk_exn TypeError (py "object is not iterable"))
  end.

(** [item[key]] *)
Definition subscript (item : json) (key : pystr) : outcome json :=
  match item with
  | JObject fields =>
      match dict_get key fields with
      | Some v => Ok v
      | None => Raise (mk_exn KeyError key)
      end
  | JString _ => Raise (mk_exn TypeError (py "string indices must be integers"))
  | JArray _ => Raise (mk_exn TypeError (py "list indices must be integers or slices, not str"))
  | _ => Raise (mk_exn TypeError (py "object is not subscriptable"))
  end.

(** An object as the program observes it: its truth value and its [str()]. *)
Record pyobj : Type := mk_pyobj { truthy : bool; to_str : pystr }.

(** A [str] seen as an object. *)
Definition str_obj (s : pystr) : pyobj := mk_pyobj (nonempty s) s.

(** Semantic Kernel hands a function's return value back wrapped in a
    [FunctionResult]: an object, hence true, whose [str()] is that of the
    wrapped value when the value is true and the empty string otherwise. *)
Definition FunctionResult (value : pyobj) : pyobj :=
  mk_pyobj true (if truthy value then to_str value else []).

(** [str(result) if result else default] *)
Definition str_or (result : pyobj) (default : pystr) : pystr :=
  if truthy result then to_str result else default.

(* ================================================================= *)
(** ** models/intent.py *)

Inductive IntentType : Type :=
| M365_EMAIL
| M365_CALENDAR
| M365_FILES
| M365_PEOPLE
| GENERAL_KNOWLEDGE.

(** [member.value] *)
Definition value (t : IntentType) : pystr :=
  match t with
  | M365_EMAIL => py "M365Email"
  | M365_CALENDAR => py "M365Calendar"
  | M365_FILES => py "M365Files"
  | M365_PEOPLE => py "M365People"
  | GENERAL_KNOWLEDGE => py "GeneralKnowledge"
  end.

Definition IntentType_eqb (a b : IntentType) : bool :=
  match a, b with
  | M365_EMAIL, M365_EMAIL | M365_CALENDAR, M365_CALENDAR
  | M365_FILES, M365_FILES | M365_PEOPLE, M365_PEOPLE
  | GENERAL_KNOWLEDGE, GENERAL_KNOWLEDGE => true
  | _, _ => false
  end.

Definition members : list IntentType :=
  [M365_EMAIL; M365_CALENDAR; M365_FILES; M365_PEOPLE; GENERAL_KNOWLEDGE].

Definition not_a_valid_IntentType : exn :=
  mk_exn ValueError (py "is not a valid IntentType").

(** [IntentType(v)]: lookup by value; every value that is not one of the five
    strings raises [ValueError]. *)
Definition IntentType_of (v : json) : outcome IntentType :=
  match v with
  | JString s =>
      match List.find (fun t => str_eqb (value t) s) members with
      | Some t => Ok t
      | None => Raise not_a_valid_IntentType
      end
  | _ => Raise not_a_valid_IntentType
  end.

(** What an attribute annotated [IntentType] holds at run time.  A dataclass
    does not check its annotations; [__post_init__] turns a [str] into a
    member (or raises), so the attribute holds a member or a value that is
    not a [str]. *)
Inductive non_str : Type :=
| NNull
| NBool (b : bool)
| NNumber (lexeme : pystr)
| NArray (items : list json)
| NObject (fields : list (pystr * json)).

Inductive type_field : Type :=
| Member (t : IntentType)
| Other (v : non_str).

(** [Intent.__post_init__]: [if isinstance(self.type, str): self.type =
    IntentType(self.type)], on the decoded value passed as [type]. *)
Definition __post_init__ (v : json) : outcome type_field :=
  match v with
  | JString s => t <- IntentType_of (JString s) ;; Ok (Member t)
  | JNull => Ok (Other NNull)
  | JBool b => Ok (Other (NBool b))
  | JNumber n => Ok (Other (NNumber n))
  | JArray items => Ok (Other (NArray items))
  | JObject fields => Ok (Other (NObject fields))
  end.

(** [x == IntentType.T]: a value that is not a [str] equals no member. *)
Definition type_is (x : type_field) (t : IntentType) : bool :=
  match x with
  | Member t' => IntentType_eqb t' t
  | Other _ => false
  end.

(** [x.value] *)
Definition dot_value (x : type_field) : outcome pystr :=
  match x with
  | Member t => Ok (value t)
  | Other _ => Raise (mk_exn AttributeError (py "object has no attribute 'value'"))
  end.

Record Intent : Type := mk_Intent {
  type : type_field;
  query : json;
  confidence : json                     (* [None] is [JNull] *)
}.

Definition is_m365_intent (self : Intent) : bool :=
  type_is (type self) M365_EMAIL || type_is (type self) M365_CALENDAR
  || type_is (type self) M365_FILES || type_is (type self) M365_PEOPLE.

(** [Intent(type=member, query=..., confidence=...)]: a member is a [str]
    (the enumeration mixes [str] in) and [__post_init__] looks it up to
    itself. *)
Definition Intent_init (t : IntentType) (query confidence : json) : Intent :=
  mk_Intent (Member t) query confidence.

Definition Intent_fields : list pystr := [py "type"; py "query"; py "confidence"].

(** [Intent] applied to [item] unpacked as keyword arguments: [item] must
    be a mapping, carry no keyword the dataclass lacks, and carry the two
    fields without a default. *)
Definition Intent_of_kwargs (item : json) : outcome Intent :=
  match item with
  | JObject kw =>
      if negb (forallb (fun kv => existsb (str_eqb (fst kv)) Intent_fields) kw)
      then Raise (mk_exn TypeError (py "got an unexpected keyword argument"))
      else
        match dict_get (py "type") kw, dict_get (py "query") kw with
        | Some t, Some q =>
            t' <- __post_init__ t ;;
            Ok (mk_Intent t' q
                  (match dict_get (py "confidence") kw with Some c => c | None => JNull end))
        | _, _ => Raise (mk_exn TypeError (py "missing required positional argument"))
        end
  | _ => Raise (mk_exn TypeError (py "argument after ** must be a mapping"))
  end.

(* ================================================================= *)
(** ** models/agent_response.py, models/configuration.py *)

Record AgentResponse : Type := mk_AgentResponse {
  agent : pystr;
  intent_type : type_field;
  content : pystr;
  success : bool;
  error : option pystr;
  metadata : list (pystr * json)
}.

(** [AgentResponse(agent=..., intent_type=..., content=..., success=...,
    error=...)].  [metadata] takes its default, the empty dict;
    [__post_init__] leaves [intent_type] as it is, since it is passed a
    member or the [type] attribute of an [Intent]. *)
Definition AgentResponse_init (agent : pystr) (intent_type : type_field)
           (content : pystr) (success : bool) (error : option pystr)
  : AgentResponse :=
  mk_AgentResponse agent intent_type content success error [].

Record OrchestrationSettings : Type := mk_OrchestrationSettings {
  max_agent_calls : Z;
  timeout_seconds : Z;
  enable_parallel_execution : bool
}.

(* ================================================================= *)
(** ** The collaborators of one turn *)

(** The three prompts of the plugins.  Each is a fixed template around the
    values listed here; the completion service is addressed by them. *)
Inductive prompt : Type :=
| IntentPrompt (query : json)
| AnswerPrompt (question : json)
| SynthesisPrompt (original_query : json) (responses : list (pystr * pystr * pystr)).

(** What [microsoft_graph_copilot_chat.post] answers: nothing, an object
    without a [messages] attribute, or an object with its messages, each
    with its [text] attribute when it has one. *)
Inductive ChatResponse : Type :=
| NoResponse
| NoMessagesAttribute
| Messages (texts : list (option pystr)).

(** [AgentContext] as the M365 plugin uses it: the conversation handle the
    state store returns for ["M365CopilotConversationId"], the token
    exchange, and the two calls of the Graph client.  The collaborators
    answer as functions of what they are asked; the handle the plugin writes
    back with [set_value] is the one [conversations_post] returns, so a later
    call of the turn that reads it or creates it again chats under the same
    handle. *)
Record AgentContext : Type := mk_AgentContext {
  stored_conversation_id : option pystr;
  exchange_token : outcome (option pystr);
  conversations_post : outcome (option (option pystr));
  chat_post : pystr -> json -> outcome ChatResponse
}.

(** The per-turn [Kernel] built by [_setup_plugins]: the completion service
    behind [invoke_prompt], the exception [kernel.invoke] raises when the
    invoked function raised, and the context its plugins were built with. *)
Record Kernel : Type := mk_Kernel {
  invoke_prompt : prompt -> outcome pyobj;
  invoke_error : exn -> exn;
  context : AgentContext
}.

(** [kernel.invoke(plugin_name=..., function_name=..., ...)] once the
    function is found: its value comes back as a [FunctionResult], its
    exception as the kernel's.  The arguments reach the function as they are
    given, which is what the kernel does with a [str], the type the
    functions are annotated with; what it does with an argument of another
    type (a conversion, or a refusal) is not part of this embedding, and the
    statements that depend on it are made for [str] queries. *)
Definition kernel_invoke (kernel : Kernel) (call : outcome pyobj) : outcome pyobj :=
  match call with
  | Ok v => Ok (FunctionResult v)
  | Raise e => Raise (invoke_error kernel e)
  end.

(* ================================================================= *)
(** ** What a turn does, as seen from outside *)

(** The calls [on_message_activity] makes, in the order it makes them. *)
Inductive Event : Type :=
| Sent (text : pystr)                     (* [context.send_activity(text)] *)
| TimeoutEntered (seconds : Z)            (* [async with asyncio.timeout(seconds)] *)
| AnalyzeIntentCalled (query : pystr)     (* [self._analyze_intent] *)
| ExecuteAgentsCalled (intents : list Intent)   (* [self._execute_agents] *)
| SynthesizeResponseCalled (original_query : pystr) (responses : list AgentResponse).
                                          (* [self._synthesize_response] *)

(** A computation that makes such calls on its way to its outcome. *)
Definition traced (A : Type) : Type := (list Event * outcome A)%type.

Definition tbind {A B} (c : traced A) (k : A -> traced B) : traced B :=
  match c with
  | (log, Ok a) => let (log', r) := k a in (log ++ log', r)
  | (log, Raise e) => (log, Raise e)
  end.

Definition call {A} (e : Event) (c : outcome A) : traced A := ([e], c).

Definition uncalled {A} (c : outcome A) : traced A := ([], c).

Notation "x <~ c ;; k" := (tbind c (fun x => k))
  (at level 61, c at next level, right associativity).

(* ================================================================= *)
(** ** The plugins and the orchestrator *)

Section Program.

(** [json.loads] of the Python library; it raises [json.JSONDecodeError] on
    text that is not JSON. *)
Variable json_loads : pystr -> outcome json.

(** [str.lower] of the Python library. *)
Variable str_lower : pystr -> pystr.

(** [str()] of a coroutine object (it embeds a memory address). *)
Variable coroutine_repr : pystr.

(* ----------------------------------------------------------------- *)
(** *** plugins/intent_plugin.py *)

Definition fence : pystr := py "```".
Definition fence_json : pystr := py "```json".

(** [re.search(opening + r"\s*(.*?)\s*```", response, re.DOTALL)] followed
    by [match.group(1).strip()].  The search succeeds when a closing fence
    follows the first opening; the lazy group then ends before the first
    such fence, and stripping removes the white space either side of it. *)
Definition search_fenced (opening response : pystr) : option pystr :=
  match find opening response with
  | Some i =>
      let rest := skipn (i + List.length opening) response in
      match find fence rest with
      | Some k => Some (strip (firstn k rest))
      | None => None
      end
  | None => None
  end.

Definition _extract_json (response : pystr) : pystr :=
  if contains fence_json response then
    match search_fenced fence_json response with
    | Some g => g
    | None => strip response
    end
  else if contains fence response then
    match search_fenced fence response with
    | Some g => g
    | None => strip response
    end
  else strip response.

(** The kernel function [AnalyzeIntent]. *)
Definition analyze_intent (kernel : Kernel) (query : json) : outcome pystr :=
  result <- invoke_prompt kernel (IntentPrompt query) ;;
  let response := str_or result (py "[]") in
  Ok (_extract_json response).

(** [item.get(key)] *)
Definition dot_get (item : json) (key : pystr) : outcome json :=
  match item with
  | JObject fields =>
      Ok (match dict_get key fields with Some v => v | None => JNull end)
  | _ => Raise (mk_exn AttributeError (py "object has no attribute 'get'"))
  end.

(** The body of the inner [try] of [parse_intent_response]. *)
Definition parse_item (item : json) : outcome Intent :=
  t <- subscript item (py "type") ;;
  t' <- IntentType_of t ;;
  q <- subscript item (py "query") ;;
  c <- dot_get item (py "confidence") ;;
  Ok (Intent_init t' q c).

(** The [for item in intents_data] loop, [intents] being the list built so
    far. *)
Fixpoint parse_items (intents_data : list json) (intents : list Intent)
  : outcome (list Intent) :=
  match intents_data with
  | [] => Ok intents
  | item :: rest =>
      intents' <- try_except
                    (intent <- parse_item item ;; Ok (intents ++ [intent]))
                    [KeyError; ValueError]
                    (fun _ => Ok intents) ;;
      parse_items rest intents'
  end.

Definition parse_intent_response (json_response : pystr) (original_query : json)
  : outcome (list Intent) :=
  try_except
    (intents_data <- json_loads json_response ;;
     match intents_data with
     | JArray items =>
         if negb (nonempty items)
         then Ok [Intent_init GENERAL_KNOWLEDGE original_query JNull]
         else
           intents <- parse_items items [] ;;
           if negb (nonempty intents)
           then Ok [Intent_init GENERAL_KNOWLEDGE original_query JNull]
           else Ok intents
     | _ => Ok [Intent_init GENERAL_KNOWLEDGE original_query JNull]
     end)
    [JSONDecodeError]
    (fun _ => Ok [Intent_init GENERAL_KNOWLEDGE original_query JNull]).

(* ----------------------------------------------------------------- *)
(** *** plugins/azure_openai_plugin.py *)

(** The kernel function [AnswerGeneralQuestion]. *)
Definition answer_general_question (kernel : Kernel) (question : json) : outcome pystr :=
  result <- invoke_prompt kernel (AnswerPrompt question) ;;
  let answer := str_or result (py "I'm unable to answer that question at the moment.") in
  Ok answer.

(* ----------------------------------------------------------------- *)
(** *** plugins/m365_copilot_plugin.py *)

(** Truth value of a value that is [None] or a [str]. *)
Definition opt_truthy (x : option pystr) : bool :=
  match x with Some s => nonempty s | None => false end.

Definition _create_copilot_client (ctx : AgentContext) : outcome unit :=
  access_token <- exchange_token ctx ;;
  if negb (opt_truthy access_token)
  then Raise (mk_exn RuntimeError
                (py "Access token not available. Ensure authentication is configured."))
  else Ok tt.

(** [self._get_fallback_response(...)] is called without [await]: what is
    returned is the coroutine object. *)
Definition coroutine_object : pyobj := mk_pyobj true coroutine_repr.

(** The body of the outer [try] of [_call_copilot_chat_api]. *)
Definition chat_api_body (ctx : AgentContext) (query : json) : outcome pyobj :=
  let conversation_id := stored_conversation_id ctx in
  _ <- _create_copilot_client ctx ;;
  conversation_id <-
    (if negb (opt_truthy conversation_id) then
       conversation <- conversations_post ctx ;;
       match conversation with
       | Some (Some id) =>
           if nonempty id then Ok id   (* stored back with [set_value] *)
           else Raise (mk_exn RuntimeError
                         (py "Failed to create conversation - no ID returned"))
       | _ => Raise (mk_exn RuntimeError
                       (py "Failed to create conversation - no ID returned"))
       end
     else Ok (match conversation_id with Some id => id | None => [] end)) ;;
  try_except
    (response <- chat_post ctx conversation_id query ;;
     match response with
     | Messages texts =>
         match rev texts with
         | assistant_message :: _ =>
             let response_text :=
               if opt_truthy assistant_message
               then match assistant_message with Some t => t | None => [] end
               else py "No response content." in
             Ok (str_obj response_text)
         | [] => Ok (str_obj (py "No response received from Copilot."))
         end
     | _ => Ok (str_obj (py "No response received from Copilot."))
     end)
    [AttributeError]
    (fun _ => Ok coroutine_object).

Definition _call_copilot_chat_api (ctx : AgentContext) (query : json) : outcome pyobj :=
  try_except
    (chat_api_body ctx query)
    [Exception]
    (fun ex =>
       let error_msg := str_lower (exn_str ex) in
       if contains (py "401") error_msg || contains (py "unauthorized") error_msg then
         Ok (str_obj (py "Your session has expired. Please log in again."))
       else if contains (py "403") error_msg || contains (py "forbidden") error_msg then
         Ok (str_obj (py "You don't have access to Microsoft 365 Copilot. Please contact your administrator to verify your license."))
       else if contains (py "404") error_msg || contains (py "not found") error_msg then
         Ok (str_obj (py "The Copilot service is not available. Please try again later."))
       else if contains (py "500") error_msg || contains (py "server error") error_msg then
         Ok (str_obj (py "The Copilot service encountered an error. Please try again later."))
       else Raise ex).

(** The four kernel functions of the plugin. *)
Definition query_emails := _call_copilot_chat_api.
Definition query_calendar := _call_copilot_chat_api.
Definition query_files := _call_copilot_chat_api.
Definition query_people := _call_copilot_chat_api.

Definition M365CopilotPlugin : list (pystr * (AgentContext -> json -> outcome pyobj)) :=
  [ (py "QueryEmails", query_emails);
    (py "QueryCalendar", query_calendar);
    (py "QueryFiles", query_files);
    (py "QueryPeople", query_people) ].

(* ----------------------------------------------------------------- *)
(** *** plugins/synthesis_plugin.py *)

(** The kernel function [Synthesize]. *)
Definition synthesize (kernel : Kernel) (original_query : json)
           (responses : list (pystr * pystr * pystr)) : outcome pystr :=
  result <- invoke_prompt kernel (SynthesisPrompt original_query responses) ;;
  let synthesized := str_or result (py "I couldn't synthesize a response.") in
  Ok synthesized.

(** The dicts that [json.dumps(..., indent=2)] then renders: agent,
    intent type and content of every successful response. *)
Definition format_responses_for_synthesis (responses : list AgentResponse)
  : outcome (list (pystr * pystr * pystr)) :=
  let successful_responses := filter success responses in
  comprehension
    (fun r => v <- dot_value (intent_type r) ;; Ok (agent r, v, content r))
    successful_responses.

(* ----------------------------------------------------------------- *)
(** *** agent/orchestrator_agent.py *)

Definition MAX_MESSAGE_LENGTH : Z := 4000.

(** [kernel.invoke(plugin_name=PluginNames.M365_COPILOT,
    function_name=function_name, query=query)] *)
Definition invoke_M365CopilotPlugin (kernel : Kernel) (function_name : pystr)
           (query : json) : outcome pyobj :=
  match List.find (fun nf => str_eqb (fst nf) function_name) M365CopilotPlugin with
  | Some (_, f) => kernel_invoke kernel (f (context kernel) query)
  | None => Raise (mk_exn Exception (py "function not found in plugin"))
  end.

Definition _analyze_intent (kernel : Kernel) (query : pystr) : outcome (list Intent) :=
  try_except
    (result <- kernel_invoke kernel
                 (r <- analyze_intent kernel (JString query) ;; Ok (str_obj r)) ;;
     let json_response := str_or result (py "[]") in
     data <- json_loads json_response ;;
     items <- iterate data ;;
     intents <- comprehension Intent_of_kwargs items ;;
     Ok intents)
    [Exception]
    (fun _ => Ok [Intent_init GENERAL_KNOWLEDGE (JString query) JNull]).

Definition _execute_m365_plugin (kernel : Kernel) (function_name : pystr)
           (query : json) (intent_type : IntentType) : outcome AgentResponse :=
  result <- invoke_M365CopilotPlugin kernel function_name query ;;
  let content := str_or result (py "No response received.") in
  Ok (AgentResponse_init (py "m365_copilot") (Member intent_type) content true None).

Definition _execute_general_knowledge (kernel : Kernel) (query : json)
  : outcome AgentResponse :=
  result <- kernel_invoke kernel
              (r <- answer_general_question kernel query ;; Ok (str_obj r)) ;;
  let content := str_or result (py "I'm unable to answer that question.") in
  Ok (AgentResponse_init (py "azure_openai") (Member GENERAL_KNOWLEDGE) content true None).

(** The body of the [try] of [_execute_agent_for_intent]: the switch on the
    intent type. *)
Definition dispatch (kernel : Kernel) (intent : Intent) : outcome AgentResponse :=
  if type_is (type intent) M365_EMAIL then
    _execute_m365_plugin kernel (py "QueryEmails") (query intent) M365_EMAIL
  else if type_is (type intent) M365_CALENDAR then
    _execute_m365_plugin kernel (py "QueryCalendar") (query intent) M365_CALENDAR
  else if type_is (type intent) M365_FILES then
    _execute_m365_plugin kernel (py "QueryFiles") (query intent) M365_FILES
  else if type_is (type intent) M365_PEOPLE then
    _execute_m365_plugin kernel (py "QueryPeople") (query intent) M365_PEOPLE
  else if type_is (type intent) GENERAL_KNOWLEDGE then
    _execute_general_knowledge kernel (query intent)
  else
    Ok (AgentResponse_init (py "unknown") (type intent)
          (py "I'm not sure how to handle that request.") false None).

Definition _execute_agent_for_intent (kernel : Kernel) (intent : Intent)
  : outcome AgentResponse :=
  try_except
    (dispatch kernel intent)
    [Exception]
    (fun e =>
       agent <- dot_value (type intent) ;;
       Ok (AgentResponse_init agent (type intent)
             (py "Error: " ++ exn_str e) false (Some (exn_str e)))).

(** [asyncio.gather] of the tasks with [return_exceptions=True]: the outcome of every
    task, value or exception, in the order of the tasks. *)
Definition gather {A} (tasks : list (outcome A)) : list (outcome A) := tasks.

(** The loop over [enumerate(responses)] of the parallel branch: [result]
    is the list built so far, [intent] is [intents[i]]. *)
Fixpoint convert_exceptions (pairs : list (Intent * outcome AgentResponse))
         (result : list AgentResponse) : outcome (list AgentResponse) :=
  match pairs with
  | [] => Ok result
  | (intent, Raise response) :: rest =>
      agent <- dot_value (type intent) ;;
      convert_exceptions rest
        (result ++ [AgentResponse_init agent (type intent)
                      (py "Error: " ++ exn_str response) false None])
  | (intent, Ok response) :: rest =>
      convert_exceptions rest (result ++ [response])
  end.

(** The loop of the sequential branch. *)
Fixpoint run_sequentially (execute : Intent -> outcome AgentResponse)
         (intents : list Intent) (responses : list AgentResponse)
  : outcome (list AgentResponse) :=
  match intents with
  | [] => Ok responses
  | intent :: rest =>
      response <- execute intent ;;
      run_sequentially execute rest (responses ++ [response])
  end.

(** [_execute_agents] with the method it calls on [self] for every intent
    made explicit. *)
Definition execute_agents_with (execute : Intent -> outcome AgentResponse)
           (settings : OrchestrationSettings) (intents : list Intent)
  : outcome (list AgentResponse) :=
  if enable_parallel_execution settings then
    let tasks := map execute intents in
    let responses := gather tasks in
    convert_exceptions (combine intents responses) []
  else
    run_sequentially execute intents [].

Definition _execute_agents (settings : OrchestrationSettings) (kernel : Kernel)
           (intents : list Intent) : outcome (list AgentResponse) :=
  execute_agents_with (_execute_agent_for_intent kernel) settings intents.

Definition _synthesize_response (kernel : Kernel) (original_query : pystr)
           (responses : list AgentResponse) : outcome pystr :=
  formatted_responses <- format_responses_for_synthesis responses ;;
  result <- kernel_invoke kernel
              (r <- synthesize kernel (JString original_query) formatted_responses ;;
               Ok (str_obj r)) ;;
  Ok (str_or result (py "I couldn't generate a response.")).

(** [l[:n]] *)
Definition slice_to {A} (l : list A) (n : Z) : list A :=
  if (0 <=? n)%Z then firstn (Z.to_nat n) l
  else firstn (Z.to_nat (len l + n)) l.

(** The [MaxAgentCalls] limit of [on_message_activity]. *)
Definition apply_max_agent_calls (settings : OrchestrationSettings)
           (intents : list Intent) : list Intent :=
  if (max_agent_calls settings <? len intents)%Z
  then slice_to intents (max_agent_calls settings)
  else intents.

(** The block under [async with asyncio.timeout(...)], followed as its
    calls return.  Entering the timeout is an event of the trace; the
    delivery of its expiry at a pending call belongs to the scheduler and is
    not part of this embedding. *)
Definition timed_block (settings : OrchestrationSettings) (kernel : Kernel)
           (user_message : pystr) : traced unit :=
  _ <~ call (TimeoutEntered (timeout_seconds settings)) (Ok tt) ;;
  intents <~ call (AnalyzeIntentCalled user_message)
                  (_analyze_intent kernel user_message) ;;
  let intents := apply_max_agent_calls settings intents in
  (* the log line joins [i.type.value for i in intents] *)
  _ <~ uncalled (comprehension (fun i => dot_value (type i)) intents) ;;
  responses <~ call (ExecuteAgentsCalled intents)
                    (_execute_agents settings kernel intents) ;;
  final_response <~ call (SynthesizeResponseCalled user_message responses)
                         (_synthesize_response kernel user_message responses) ;;
  call (Sent final_response) (Ok tt).

(** The handler of message activities; [text] is [context.activity.text]. *)
Definition on_message_activity (settings : OrchestrationSettings) (kernel : Kernel)
           (text : option pystr) : list Event :=
  let user_message :=
    if opt_truthy text
    then strip (match text with Some t => t | None => [] end)
    else [] in
  if negb (nonempty user_message) then
    [Sent (py "Please enter a message.")]
  else if (MAX_MESSAGE_LENGTH <? len user_message)%Z then
    [Sent (py "Message too long. Maximum " ++ str_of_int MAX_MESSAGE_LENGTH
           ++ py " characters allowed.")]
  else
    let (log, r) := timed_block settings kernel user_message in
    log ++
    match r with
    | Ok _ => []
    | Raise ex =>
        if isinstance ex [TimeoutError] then
          [Sent (py "The request timed out. Please try a simpler query or try again later.")]
        else (* except Exception *)
          [Sent (py "Sorry, an error occurred processing your request. Please try again.")]
    end.

End Program.

(* ================================================================= *)
(** ** models/agent_response.py: [to_dict] *)

(** The dict [to_dict] returns, as the values [json.loads] would give back
    for it. *)
Definition to_dict (self : AgentResponse) : outcome (list (pystr * json)) :=
  intent_type_value <- dot_value (intent_type self) ;;
  Ok [ (py "agent", JString (agent self));
       (py "intent_type", JString intent_type_value);
       (py "content", JString (content self));
       (py "success", JBool (success self));
       (py "error", match error self with Some e => JString e | None => JNull end);
       (py "metadata", JObject (metadata self)) ].

(* ================================================================= *)
(** ** state/conversation_state.py *)

(** A [dict] with [str] keys, listed by key. *)
Definition dict (V : Type) : Type := list (pystr * V).

(** [d.get(key)] *)
Fixpoint getitem {V} (key : pystr) (d : dict V) : option V :=
  match d with
  | [] => None
  | (k, v) :: rest => if str_eqb k key then Some v else getitem key rest
  end.

(** [key in d] *)
Definition has_key {V} (key : pystr) (d : dict V) : bool :=
  match getitem key d with Some _ => true | None => false end.

(** [d[key] = v] *)
Fixpoint setitem {V} (key : pystr) (v : V) (d : dict V) : dict V :=
  match d with
  | [] => [(key, v)]
  | (k, x) :: rest =>
      if str_eqb k key then (k, v) :: rest else (k, x) :: setitem key v rest
  end.

(** [del d[key]] *)
Definition delitem {V} (key : pystr) (d : dict V) : dict V :=
  filter (fun kv => negb (str_eqb (fst kv) key)) d.

(** [d.update(updates)] *)
Definition dict_update {V} (d updates : dict V) : dict V :=
  fold_left (fun acc kv => setitem (fst kv) (snd kv) acc) updates d.

(** [self._storage] of [ConversationStateManager].  Every method runs under
    the lock, from its first statement to its last, and is embedded as a
    function of the storage it finds: a reader returns its value, a writer
    the storage it leaves.  [dict.copy()] is the identity on values. *)
Definition Storage : Type := dict (dict json).

Definition get_state (storage : Storage) (conversation_id : pystr) : dict json :=
  match getitem conversation_id storage with
  | Some state => state
  | None => []
  end.

Definition set_state (storage : Storage) (conversation_id : pystr)
           (state : dict json) : Storage :=
  setitem conversation_id state storage.

Definition update_state (storage : Storage) (conversation_id : pystr)
           (updates : dict json) : Storage :=
  let storage :=
    if negb (has_key conversation_id storage)
    then setitem conversation_id [] storage
    else storage in
  setitem conversation_id
    (dict_update (get_state storage conversation_id) updates) storage.

Definition get_value (storage : Storage) (conversation_id key : pystr)
           (default : json) : json :=
  let state := get_state storage conversation_id in
  match getitem key state with
  | Some v => v
  | None => default
  end.

Definition set_value (storage : Storage) (conversation_id key : pystr)
           (value : json) : Storage :=
  let storage :=
    if negb (has_key conversation_id storage)
    then setitem conversation_id [] storage
    else storage in
  setitem conversation_id
    (setitem key value (get_state storage conversation_id)) storage.

Definition clear_state (storage : Storage) (conversation_id : pystr) : Storage :=
  if has_key conversation_id storage
  then delitem conversation_id storage
  else storage.

(* ================================================================= *)
(** ** plugins/user_authorization_token_wrapper.py *)

Record AccessToken : Type := mk_AccessToken { token : pystr; expires_on : Z }.

Section TokenWrapper.

(** [jwt.decode(jwt_token, options={"verify_signature": False})] of PyJWT:
    the claims of the token, or an exception. *)
Variable jwt_decode : pystr -> outcome (dict json).

(** [int(x)] of the Python library. *)
Variable int_of : json -> outcome Z.

(** The loop that fills [converted_scopes]; [converted] is the list built so
    far. *)
Fixpoint convert_scopes (scopes converted_scopes : list pystr) : list pystr :=
  match scopes with
  | [] => converted_scopes
  | scope :: rest => convert_scopes rest (converted_scopes ++ [scope])
  end.

(** [get_token]: [user_authorization_exchange] is
    [self._user_authorization.exchange_token] with the context, the
    connection and the handler of the wrapper; it answers the scopes with
    [None] or with a response whose [token] is [None] or a [str]. *)
Definition get_token
           (user_authorization_exchange : list pystr -> outcome (option (option pystr)))
           (scopes : list pystr) : outcome AccessToken :=
  let converted_scopes := convert_scopes scopes [] in
  token_response <- user_authorization_exchange converted_scopes ;;
  match token_response with
  | Some (Some jwt_token) =>
      if negb (nonempty jwt_token) then
        Raise (mk_exn RuntimeError
                 (py "Token exchange failed - no token returned from Authorization service"))
      else
        expires_on <-
          try_except
            (decoded <- jwt_decode jwt_token ;;
             match dict_get (py "exp") decoded with
             | None | Some JNull =>
                 Raise (mk_exn RuntimeError (py "JWT does not contain an 'exp' claim"))
             | Some exp_claim => int_of exp_claim
             end)
            [Exception]
            (fun ex =>
               Raise (mk_exn RuntimeError
                        (py "Failed to parse JWT token expiration: " ++ exn_str ex))) ;;
        Ok (mk_AccessToken jwt_token expires_on)
  | _ =>
      Raise (mk_exn RuntimeError
               (py "Token exchange failed - no token returned from Authorization service"))
  end.

End TokenWrapper.

(* ================================================================= *)
(** ** models/configuration.py, config.py *)

Record AzureOpenAISettings : Type := mk_AzureOpenAISettings {
  endpoint : pystr;
  api_key : pystr;
  deployment_name : pystr;
  api_version : pystr
}.

Record MicrosoftGraphSettings : Type := mk_MicrosoftGraphSettings {
  base_url : pystr;
  copilot_endpoint : pystr
}.

Record ConnectionSettings : Type := mk_ConnectionSettings {
  client_id : pystr;
  client_secret : pystr;
  tenant_id : pystr;
  connection_name : pystr
}.

Record AppSettings (SdkConfig : Type) : Type := mk_AppSettings {
  azure_openai : AzureOpenAISettings;
  microsoft_graph : MicrosoftGraphSettings;
  orchestration : OrchestrationSettings;
  connection : ConnectionSettings;
  log_level : pystr;
  agents_sdk_config : SdkConfig
}.
Arguments mk_AppSettings {SdkConfig}.
Arguments azure_openai {SdkConfig}.
Arguments microsoft_graph {SdkConfig}.
Arguments orchestration {SdkConfig}.
Arguments connection {SdkConfig}.
Arguments log_level {SdkConfig}.
Arguments agents_sdk_config {SdkConfig}.

Section Config.

(** [int(s)] of the Python library, on a [str]. *)
Variable int_of_str : pystr -> outcome Z.

(** [str.lower] of the Python library. *)
Variable str_lower : pystr -> pystr.

(** [load_configuration_from_env] of the Agents SDK, and what it returns. *)
Variable SdkConfig : Type.
Variable load_configuration_from_env : dict pystr -> outcome SdkConfig.

(** [os.getenv(key, default)], [environ] being [os.environ] once
    [load_dotenv] has run. *)
Definition getenv (environ : dict pystr) (key default : pystr) : pystr :=
  match getitem key environ with
  | Some v => v
  | None => default
  end.

Definition _get_required_env (environ : dict pystr) (key : pystr) : outcome pystr :=
  match getitem key environ with
  | None =>
      Raise (mk_exn ValueError
               (py "Required environment variable " ++ key ++ py " is not set"))
  | Some value => Ok value
  end.

Definition load_settings (environ : dict pystr) : outcome (AppSettings SdkConfig) :=
  endpoint <- _get_required_env environ (py "AZURE_OPENAI_ENDPOINT") ;;
  api_key <- _get_required_env environ (py "AZURE_OPENAI_API_KEY") ;;
  deployment_name <- _get_required_env environ (py "AZURE_OPENAI_DEPLOYMENT_NAME") ;;
  let azure_openai :=
    mk_AzureOpenAISettings endpoint api_key deployment_name
      (getenv environ (py "AZURE_OPENAI_API_VERSION") (py "2024-08-01-preview")) in
  let microsoft_graph :=
    mk_MicrosoftGraphSettings
      (getenv environ (py "GRAPH_BASE_URL") (py "https://graph.microsoft.com/beta"))
      (getenv environ (py "GRAPH_COPILOT_ENDPOINT") (py "/copilot/conversations")) in
  max_agent_calls <-
    int_of_str (getenv environ (py "ORCHESTRATION_MAX_AGENT_CALLS") (py "5")) ;;
  timeout_seconds <-
    int_of_str (getenv environ (py "ORCHESTRATION_TIMEOUT_SECONDS") (py "30")) ;;
  let orchestration :=
    mk_OrchestrationSettings max_agent_calls timeout_seconds
      (str_eqb
         (str_lower (getenv environ (py "ORCHESTRATION_ENABLE_PARALLEL_EXECUTION")
                       (py "true")))
         (py "true")) in
  client_id <-
    _get_required_env environ (py "CONNECTIONS__SERVICE_CONNECTION__SETTINGS__CLIENTID") ;;
  client_secret <-
    _get_required_env environ
      (py "CONNECTIONS__SERVICE_CONNECTION__SETTINGS__CLIENTSECRET") ;;
  tenant_id <-
    _get_required_env environ (py "CONNECTIONS__SERVICE_CONNECTION__SETTINGS__TENANTID") ;;
  let connection :=
    mk_ConnectionSettings client_id client_secret tenant_id
      (getenv environ (py "CONNECTION_NAME") (py "service_connection")) in
  agents_sdk_config <- load_configuration_from_env environ ;;
  Ok (mk_AppSettings azure_openai microsoft_graph orchestration connection
        (getenv environ (py "LOG_LEVEL") (py "INFO")) agents_sdk_config).

End Config.

Arguments py : simpl never.

(* ================================================================= *)
(** ** Sample collaborators, for the closed examples *)

(** [str.lower] as it acts on ASCII text. *)
Definition ascii_lower (s : pystr) : pystr :=
  map (fun c => if ((65 <=? c) && (c <=? 90))%N then (c + 32)%N else c) s.

(** A JSON string literal: the text between double quotes. *)
Definition quoted (s : string) : pystr := [34%N] ++ py s ++ [34%N].

(** A reply of the classifier with two items, the second of a type outside
    the enumeration. *)
Definition two_items_text : pystr :=
  py "[{" ++ quoted "type" ++ py ": " ++ quoted "M365Email" ++ py ", "
  ++ quoted "query" ++ py ": " ++ quoted "Check emails" ++ py "}, {"
  ++ quoted "type" ++ py ": " ++ quoted "InvalidType" ++ py ", "
  ++ quoted "query" ++ py ": " ++ quoted "test" ++ py "}]".

Definition two_items : list json :=
  [ JObject [ (py "type", JString (py "M365Email"));
              (py "query", JString (py "Check emails")) ];
    JObject [ (py "type", JString (py "InvalidType"));
              (py "query", JString (py "test")) ] ].

(** [json.loads] on the two texts the examples decode; elsewhere this
    sample raises. *)
Definition loads_sample (s : pystr) : outcome json :=
  if str_eqb s (py "[]") then Ok (JArray [])
  else if str_eqb s two_items_text then Ok (JArray two_items)
  else Raise (mk_exn JSONDecodeError (py "Expecting value")).

Definition sample_repr : pystr := py "<coroutine object>".

(** A signed-in user with no conversation yet; Copilot answers every chat
    with one message. *)
Definition sample_context : AgentContext :=
  mk_AgentContext None
    (Ok (Some (py "token")))
    (Ok (Some (Some (py "conversation-1"))))
    (fun _ _ => Ok (Messages [Some (py "You have 3 unread emails.")])).


(** The completion service returns [None] to every prompt. *)
Definition null_kernel (ctx : AgentContext) : Kernel :=
  mk_Kernel (fun _ => Ok (mk_pyobj false (py "None"))) (fun e => e) ctx.

(** The completion service is down. *)
Definition failing_kernel (ctx : AgentContext) : Kernel :=
  mk_Kernel (fun _ => Raise (mk_exn Exception (py "connection reset")))
            (fun e => e) ctx.

(** The completion service answers every prompt with [text]. *)
Definition replying_kernel (text : pystr) (ctx : AgentContext) : Kernel :=
  mk_Kernel (fun _ => Ok (FunctionResult (str_obj text))) (fun e => e) ctx.

Definition email_intent : Intent :=
  mk_Intent (Member M365_EMAIL) (JString (py "Check emails")) JNull.

Definition docker_intent : Intent :=
  mk_Intent (Member GENERAL_KNOWLEDGE) (JString (py "What is Docker?")) JNull.

(** What [Intent(type=5, query="hello")] builds: the number stays in the
    [type] attribute. *)
Definition numbered_intent : Intent :=
  mk_Intent (Other (NNumber (py "5"))) (JString (py "hello")) JNull.

(** An executor that raises on email intents and answers the others. *)
Definition flaky_executor (intent : Intent) : outcome AgentResponse :=
  if type_is (type intent) M365_EMAIL
  then Raise (mk_exn RuntimeError (py "mailbox offline"))
  else Ok (AgentResponse_init (py "azure_openai") (type intent) (py "A container runtime.")
             true None).

(** A letter followed by 4000 spaces: 4001 characters. *)
Definition padded_message : pystr := py "a" ++ repeat 32%N 4000.

Definition sample_settings : OrchestrationSettings :=
  mk_OrchestrationSettings 5 30 true.

(* ----------------------------------------------------------------- *)
(** *** Further samples *)

(** The items of the reply to a question about a meeting and about Docker. *)
Definition calendar_and_docker : list json :=
  [ JObject [ (py "type", JString (py "M365Calendar"));
              (py "query", JString (py "What meetings do I have tomorrow")) ];
    JObject [ (py "type", JString (py "GeneralKnowledge"));
              (py "query", JString (py "What is Docker")) ] ].

(** The same items as the text of a reply, and [json.loads] on that text;
    elsewhere this sample raises. *)
Definition calendar_and_docker_text : pystr :=
  py "[{" ++ quoted "type" ++ py ": " ++ quoted "M365Calendar" ++ py ", "
  ++ quoted "query" ++ py ": " ++ quoted "What meetings do I have tomorrow"
  ++ py "}, {"
  ++ quoted "type" ++ py ": " ++ quoted "GeneralKnowledge" ++ py ", "
  ++ quoted "query" ++ py ": " ++ quoted "What is Docker" ++ py "}]".

Definition loads_calendar_and_docker (s : pystr) : outcome json :=
  if str_eqb s calendar_and_docker_text then Ok (JArray calendar_and_docker)
  else Raise (mk_exn JSONDecodeError (py "Expecting value")).

(** A reply whose one element is a number, and a reply whose one item has a
    number for its type. *)
Definition number_list_text : pystr := py "[5]".

Definition numbered_type_text : pystr :=
  py "[{" ++ quoted "type" ++ py ": 5, " ++ quoted "query" ++ py ": "
  ++ quoted "hello" ++ py "}]".

(** [json.loads] on these two texts; elsewhere this sample raises. *)
Definition loads_numbers (s : pystr) : outcome json :=
  if str_eqb s number_list_text then Ok (JArray [JNumber (py "5")])
  else if str_eqb s numbered_type_text then
    Ok (JArray [JObject [ (py "type", JNumber (py "5"));
                          (py "query", JString (py "hello")) ]])
  else Raise (mk_exn JSONDecodeError (py "Expecting value")).

(** A conversation is already stored. *)
Definition returning_context : AgentContext :=
  mk_AgentContext (Some (py "conversation-7"))
    (Ok (Some (py "token")))
    (Raise (mk_exn Exception (py "must not be called")))
    (fun _ _ => Ok (Messages [Some (py "Your next meeting is at 10.")])).

(** A store with one conversation. *)
Definition sample_storage : Storage :=
  [ (py "conv-1", [ (py "M365CopilotConversationId", JString (py "abc")) ]) ].

(** A token exchange, a decoder of its token and [int] on its expiry. *)
Definition sample_exchange (scopes : list pystr) : outcome (option (option pystr)) :=
  Ok (Some (Some (py "header.payload.signature"))).

Definition sample_jwt_decode (jwt_token : pystr) : outcome (dict json) :=
  Ok [ (py "sub", JString (py "user")); (py "exp", JNumber (py "1700000000")) ].

Definition sample_int_of (x : json) : outcome Z :=
  match x with
  | JNumber _ => Ok 1700000000%Z
  | _ => Raise (mk_exn TypeError (py "int() argument must be a string or a number"))
  end.

(** An environment with the required variables and nothing else, [int] on
    the two defaults, and the SDK configuration read as the unit. *)
Definition sample_environ : dict pystr :=
  [ (py "AZURE_OPENAI_ENDPOINT", py "https://test.openai.azure.com/");
    (py "AZURE_OPENAI_API_KEY", py "test-api-key");
    (py "AZURE_OPENAI_DEPLOYMENT_NAME", py "gpt-4o-mini");
    (py "CONNECTIONS__SERVICE_CONNECTION__SETTINGS__CLIENTID", py "test-client-id");
    (py "CONNECTIONS__SERVICE_CONNECTION__SETTINGS__CLIENTSECRET", py "test-client-secret");
    (py "CONNECTIONS__SERVICE_CONNECTION__SETTINGS__TENANTID", py "test-tenant-id") ].

Definition sample_int_of_str (s : pystr) : outcome Z :=
  if str_eqb s (py "5") then Ok 5%Z
  else if str_eqb s (py "30") then Ok 30%Z
  else Raise (mk_exn ValueError (py "invalid literal for int() with base 10")).

Definition sample_sdk_config (environ : dict pystr) : outcome unit := Ok tt.

(** Nobody is signed in: the token exchange returns [None]. *)
Definition signed_out_context : AgentContext :=
  mk_AgentContext None
    (Ok None)
    (Raise (mk_exn Exception (py "must not be called")))
    (fun _ _ => Raise (mk_exn Exception (py "must not be called"))).


(* ================================================================= *)
(** ** Vocabulary of the statements *)


(** The decoded value is an object (a [dict]). *)
Definition is_object (item : json) : Prop :=
  match item with JObject _ => True | _ => False end.

(** What the parallel branch of [_execute_agents] puts in the place of an
    exception [e] that escaped the execution of an intent of type [t]. *)
Definition guarded_failure (t : IntentType) (e : exn) : AgentResponse :=
  mk_AgentResponse (value t) (Member t) (py "Error: " ++ exn_str e) false None [].

(** The intent is what its dataclass declares: its [type] is a member of
    [IntentType]. *)
Definition well_typed (intent : Intent) : Prop :=
  exists t, type intent = Member t.

(** The text holds no backtick (code point 96). *)
Definition no_backtick (s : pystr) : Prop := Forall (fun c => c <> 96%N) s.

(** [h] is the conversation handle a call of the Copilot plugin chats under:
    the stored one, or the one just created when none is stored. *)
Definition conversation_handle (ctx : AgentContext) (h : pystr) : Prop :=
  nonempty h = true /\
  (stored_conversation_id ctx = Some h \/
   (opt_truthy (stored_conversation_id ctx) = false /\
    conversations_post ctx = Ok (Some (Some h)))).

(** The events that are replies to the user. *)
Definition is_reply (ev : Event) : bool :=
  match ev with Sent _ => true | _ => false end.

(** The variables [load_settings] reads with [_get_required_env]. *)
Definition required_variables : list pystr :=
  [ py "AZURE_OPENAI_ENDPOINT";
    py "AZURE_OPENAI_API_KEY";
    py "AZURE_OPENAI_DEPLOYMENT_NAME";
    py "CONNECTIONS__SERVICE_CONNECTION__SETTINGS__CLIENTID";
    py "CONNECTIONS__SERVICE_CONNECTION__SETTINGS__CLIENTSECRET";
    py "CONNECTIONS__SERVICE_CONNECTION__SETTINGS__TENANTID" ].

(** The query of the intent is a [str], what the kernel functions are
    annotated with: the kernel hands it to the plugin as it is. *)
Definition string_query (intent : Intent) : Prop :=
  exists q, query intent = JString q.

(* ================================================================= *)
(** ** Properties *)

Section Properties.

Set Default Proof Using "Type".

Variable json_loads : pystr -> outcome json.
Variable str_lower : pystr -> pystr.
Variable coroutine_repr : pystr.

(* ----------------------------------------------------------------- *)
(** *** Exceptions and results *)

Lemma issubclass_Exception (c : exn_class) : issubclass c Exception = true.
Proof. destruct c; reflexivity. Qed.

Lemma isinstance_Exception (e : exn) : isinstance e [Exception] = true.
Proof.
  unfold isinstance. cbn [existsb].
  rewrite issubclass_Exception. reflexivity.
Qed.

Lemma try_except_Exception {A} (body : outcome A) (handler : exn -> outcome A) :
  try_except body [Exception] handler =
  match body with Ok a => Ok a | Raise e => handler e end.
Proof.
  destruct body as [a | e]; cbn [try_except]; [reflexivity |].
  rewrite isinstance_Exception. reflexivity.
Qed.

Lemma str_or_FunctionResult_str (s default : pystr) :
  str_or (FunctionResult (str_obj s)) default = s.
Proof. destruct s; reflexivity. Qed.

(* ----------------------------------------------------------------- *)
(** *** The executor of one intent *)

Lemma invoke_QueryEmails kernel q :
  invoke_M365CopilotPlugin str_lower coroutine_repr kernel (py "QueryEmails") q =
  kernel_invoke kernel (_call_copilot_chat_api str_lower coroutine_repr (context kernel) q).
Proof. reflexivity. Qed.

Lemma invoke_QueryCalendar kernel q :
  invoke_M365CopilotPlugin str_lower coroutine_repr kernel (py "QueryCalendar") q =
  kernel_invoke kernel (_call_copilot_chat_api str_lower coroutine_repr (context kernel) q).
Proof. reflexivity. Qed.

Lemma invoke_QueryFiles kernel q :
  invoke_M365CopilotPlugin str_lower coroutine_repr kernel (py "QueryFiles") q =
  kernel_invoke kernel (_call_copilot_chat_api str_lower coroutine_repr (context kernel) q).
Proof. reflexivity. Qed.

Lemma invoke_QueryPeople kernel q :
  invoke_M365CopilotPlugin str_lower coroutine_repr kernel (py "QueryPeople") q =
  kernel_invoke kernel (_call_copilot_chat_api str_lower coroutine_repr (context kernel) q).
Proof. reflexivity. Qed.

Lemma execute_m365_plugin_known kernel name q t :
  In name [py "QueryEmails"; py "QueryCalendar"; py "QueryFiles"; py "QueryPeople"] ->
  _execute_m365_plugin str_lower coroutine_repr kernel name q t =
  match _call_copilot_chat_api str_lower coroutine_repr (context kernel) q with
  | Ok v => Ok (AgentResponse_init (py "m365_copilot") (Member t)
                  (str_or (FunctionResult v) (py "No response received.")) true None)
  | Raise e => Raise (invoke_error kernel e)
  end.
Proof.
  intros Hname. unfold _execute_m365_plugin.
  assert (Hinv : invoke_M365CopilotPlugin str_lower coroutine_repr kernel name q =
                 kernel_invoke kernel
                   (_call_copilot_chat_api str_lower coroutine_repr (context kernel) q)).
  { cbn [In] in Hname.
    destruct Hname as [<- | [<- | [<- | [<- | []]]]];
      auto using invoke_QueryEmails, invoke_QueryCalendar, invoke_QueryFiles,
                 invoke_QueryPeople. }
  rewrite Hinv. unfold kernel_invoke.
  destruct (_call_copilot_chat_api _ _ _ _); reflexivity.
Qed.

Lemma dispatch_member kernel intent t :
  type intent = Member t ->
  dispatch str_lower coroutine_repr kernel intent =
  match t with
  | M365_EMAIL =>
      _execute_m365_plugin str_lower coroutine_repr kernel (py "QueryEmails") (query intent) t
  | M365_CALENDAR =>
      _execute_m365_plugin str_lower coroutine_repr kernel (py "QueryCalendar") (query intent) t
  | M365_FILES =>
      _execute_m365_plugin str_lower coroutine_repr kernel (py "QueryFiles") (query intent) t
  | M365_PEOPLE =>
      _execute_m365_plugin str_lower coroutine_repr kernel (py "QueryPeople") (query intent) t
  | GENERAL_KNOWLEDGE => _execute_general_knowledge kernel (query intent)
  end.
Proof.
  intros Ht. unfold dispatch. rewrite Ht. destruct t; reflexivity.
Qed.

(** Whatever M365 type the intent has, its branch is the Copilot call
    wrapped as a successful response. *)
Lemma dispatch_m365 kernel intent t :
  type intent = Member t -> t <> GENERAL_KNOWLEDGE ->
  dispatch str_lower coroutine_repr kernel intent =
  match _call_copilot_chat_api str_lower coroutine_repr (context kernel) (query intent) with
  | Ok v => Ok (AgentResponse_init (py "m365_copilot") (Member t)
                  (str_or (FunctionResult v) (py "No response received.")) true None)
  | Raise e => Raise (invoke_error kernel e)
  end.
Proof.
  intros Ht Hgk. rewrite (dispatch_member kernel intent t Ht).
  destruct t; try (exfalso; apply Hgk; reflexivity);
    apply execute_m365_plugin_known; cbn [In]; auto 6.
Qed.

Lemma dispatch_general_knowledge kernel intent :
  type intent = Member GENERAL_KNOWLEDGE ->
  dispatch str_lower coroutine_repr kernel intent =
  match invoke_prompt kernel (AnswerPrompt (query intent)) with
  | Ok reply =>
      Ok (AgentResponse_init (py "azure_openai") (Member GENERAL_KNOWLEDGE)
            (str_or reply (py "I'm unable to answer that question at the moment."))
            true None)
  | Raise e => Raise (invoke_error kernel e)
  end.
Proof.
  intros Ht. rewrite (dispatch_member kernel intent _ Ht).
  unfold _execute_general_knowledge, answer_general_question, kernel_invoke.
  destruct (invoke_prompt kernel (AnswerPrompt (query intent))) as [reply | e];
    cbn [bind]; [| reflexivity].
  rewrite str_or_FunctionResult_str. reflexivity.
Qed.

Lemma dispatch_success kernel intent t r :
  type intent = Member t ->
  dispatch str_lower coroutine_repr kernel intent = Ok r ->
  success r = true.
Proof.
  intros Ht H. destruct (IntentType_eqb t GENERAL_KNOWLEDGE) eqn:Hgk.
  - assert (t = GENERAL_KNOWLEDGE) by (destruct t; try discriminate; reflexivity).
    subst t. rewrite (dispatch_general_knowledge kernel intent Ht) in H.
    destruct (invoke_prompt kernel _); inversion H; reflexivity.
  - assert (t <> GENERAL_KNOWLEDGE) by (intros ->; discriminate).
    rewrite (dispatch_m365 kernel intent t Ht) in H by assumption.
    destruct (_call_copilot_chat_api _ _ _ _); inversion H; reflexivity.
Qed.

Lemma dispatch_other kernel intent v :
  type intent = Other v ->
  dispatch str_lower coroutine_repr kernel intent =
  Ok (AgentResponse_init (py "unknown") (Other v)
        (py "I'm not sure how to handle that request.") false None).
Proof. intros Ht. unfold dispatch. rewrite Ht. reflexivity. Qed.

Lemma dispatch_raises_member kernel intent e :
  dispatch str_lower coroutine_repr kernel intent = Raise e ->
  exists t, type intent = Member t.
Proof.
  intros H. destruct (type intent) as [t | v] eqn:Ht.
  - exists t. reflexivity.
  - rewrite (dispatch_other kernel intent v Ht) in H. discriminate.
Qed.

(** The two ways [_execute_agent_for_intent] ends. *)
Lemma execute_agent_for_intent_outcome (kernel : Kernel) (intent : Intent) :
  exists response,
    _execute_agent_for_intent str_lower coroutine_repr kernel intent = Ok response /\
    (forall r, dispatch str_lower coroutine_repr kernel intent = Ok r -> response = r) /\
    (forall e, dispatch str_lower coroutine_repr kernel intent = Raise e ->
       exists t, type intent = Member t /\
         response = mk_AgentResponse (value t) (Member t)
                      (py "Error: " ++ exn_str e) false (Some (exn_str e)) []).
Proof.
  unfold _execute_agent_for_intent. rewrite try_except_Exception.
  destruct (dispatch str_lower coroutine_repr kernel intent) as [r | e] eqn:Hd.
  - exists r. split; [reflexivity | split].
    + intros r' Hr'. congruence.
    + intros e He. discriminate.
  - destruct (dispatch_raises_member kernel intent e Hd) as [t Ht].
    rewrite Ht. cbn [dot_value bind].
    eexists. split; [reflexivity | split].
    + intros r Hr. discriminate.
    + intros e' He'. injection He' as <-. exists t. split; reflexivity.
Qed.

Lemma execute_agent_for_intent_total (kernel : Kernel) (intent : Intent) :
  exists response,
    _execute_agent_for_intent str_lower coroutine_repr kernel intent = Ok response.
Proof.
  destruct (execute_agent_for_intent_outcome kernel intent) as (r & Hr & _).
  exists r. exact Hr.
Qed.

(** C2: per-intent execution returns one response for every intent and
    never raises; when the branch the intent is dispatched to raises, the
    response is the failed one, with content ["Error: " + message] and the
    message as its error, named after the intent type; otherwise it is the
    response of the branch. *)
Theorem execute_agent_for_intent_never_raises (kernel : Kernel) (intent : Intent) :
  exists response,
    _execute_agent_for_intent str_lower coroutine_repr kernel intent = Ok response /\
    (forall r, dispatch str_lower coroutine_repr kernel intent = Ok r -> response = r) /\
    (forall e, dispatch str_lower coroutine_repr kernel intent = Raise e ->
       exists t, type intent = Member t /\
         response = mk_AgentResponse (value t) (Member t)
                      (py "Error: " ++ exn_str e) false (Some (exn_str e)) []).
Proof. exact (execute_agent_for_intent_outcome kernel intent). Qed.

(** C8, as amended: a failed response of per-intent execution is either the
    conversion of an error raised by the branch, with content
    ["Error: " + message] and the message as its error, or the response of
    the unknown-type branch, with its fixed content and no error. *)
Theorem failed_response_shape (kernel : Kernel) (intent : Intent)
        (response : AgentResponse) :
  _execute_agent_for_intent str_lower coroutine_repr kernel intent = Ok response ->
  success response = false ->
  (exists e, dispatch str_lower coroutine_repr kernel intent = Raise e /\
             content response = py "Error: " ++ exn_str e /\
             error response = Some (exn_str e))
  \/
  ((forall t, type_is (type intent) t = false) /\
   agent response = py "unknown" /\
   content response = py "I'm not sure how to handle that request." /\
   error response = None).
Proof.
  intros Hexec Hfail.
  destruct (execute_agent_for_intent_outcome kernel intent)
    as (response' & Hexec' & Hok & Hraise).
  rewrite Hexec in Hexec'. injection Hexec' as <-.
  destruct (dispatch str_lower coroutine_repr kernel intent) as [r | e] eqn:Hd.
  - right. rewrite (Hok r eq_refl) in Hfail |- *.
    destruct (type intent) as [t | v] eqn:Ht.
    + rewrite (dispatch_success kernel intent t r Ht Hd) in Hfail. discriminate.
    + rewrite (dispatch_other kernel intent v Ht) in Hd. injection Hd as <-.
      repeat split.
  - left. exists e. destruct (Hraise e eq_refl) as (t & _ & ->).
    repeat split.
Qed.

(** C9, as amended: a GeneralKnowledge intent with a [str] query whose
    completion call returns a null (false) result is answered by a
    successful response whose content is the fallback of the plugin; when
    the call returns a result that is true, the content is the text of that
    result, also when that text is empty. *)
Theorem general_knowledge_empty_result (kernel : Kernel) (intent : Intent)
        (q : pystr) (reply : pyobj) :
  type intent = Member GENERAL_KNOWLEDGE ->
  query intent = JString q ->
  invoke_prompt kernel (AnswerPrompt (query intent)) = Ok reply ->
  (truthy reply = false ->
   _execute_agent_for_intent str_lower coroutine_repr kernel intent =
   Ok (mk_AgentResponse (py "azure_openai") (Member GENERAL_KNOWLEDGE)
         (py "I'm unable to answer that question at the moment.") true None []))
  /\
  (truthy reply = true ->
   _execute_agent_for_intent str_lower coroutine_repr kernel intent =
   Ok (mk_AgentResponse (py "azure_openai") (Member GENERAL_KNOWLEDGE)
         (to_str reply) true None [])).
Proof.
  intros Ht _ Hreply.
  unfold _execute_agent_for_intent. rewrite try_except_Exception.
  rewrite (dispatch_general_knowledge kernel intent Ht), Hreply.
  unfold str_or. split; intros ->; reflexivity.
Qed.


(** The errors of the connector that leave the body of the [try]. *)
Lemma connector_error_leaves_body (ctx : AgentContext) (query : json) (ex : exn) :
  exchange_token ctx = Raise ex
  \/
  (exists access_token,
     exchange_token ctx = Ok access_token /\ opt_truthy access_token = true /\
     opt_truthy (stored_conversation_id ctx) = false /\
     conversations_post ctx = Raise ex)
  \/
  (exists access_token h,
     exchange_token ctx = Ok access_token /\ opt_truthy access_token = true /\
     conversation_handle ctx h /\
     chat_post ctx h query = Raise ex /\
     isinstance ex [AttributeError] = false) ->
  chat_api_body coroutine_repr ctx query = Raise ex.
Proof.
  unfold chat_api_body, _create_copilot_client.
  intros [Htok | [(access_token & Htok & Htrue & Hnone & Hpost)
                 | (access_token & h & Htok & Htrue & [Hh Hhandle] & Hchat & Hcls)]].
  - rewrite Htok. reflexivity.
  - rewrite Htok. cbn [bind]. rewrite Htrue, Hnone, Hpost. reflexivity.
  - rewrite Htok. cbn [bind]. rewrite Htrue. cbn [negb bind].
    destruct Hhandle as [Hstored | [Hnone Hpost]].
    + rewrite Hstored. cbn [opt_truthy]. rewrite Hh. cbn [negb bind].
      rewrite Hchat. cbn [bind try_except]. rewrite Hcls. reflexivity.
    + rewrite Hnone, Hpost. cbn [negb bind]. rewrite Hh. cbn [bind].
      rewrite Hchat. cbn [bind try_except]. rewrite Hcls. reflexivity.
Qed.


(* ----------------------------------------------------------------- *)
(** *** The classifier *)

Lemma comprehension_raises {A B} (f : A -> outcome B) (l : list A) (a : A) (e : exn) :
  In a l -> f a = Raise e -> exists e', comprehension f l = Raise e'.
Proof.
  induction l as [| x l IH]; intros Hin Hf; [destruct Hin |].
  cbn [comprehension]. destruct (f x) as [b | ex] eqn:Hx; cbn [bind].
  - destruct Hin as [-> | Hin]; [congruence |].
    destruct (IH Hin Hf) as [e' ->]. exists e'. reflexivity.
  - exists ex. reflexivity.
Qed.

Lemma extract_json_brackets : _extract_json (py "[]") = py "[]".
Proof. vm_compute. reflexivity. Qed.

(** [_analyze_intent] by the outcome of the completion call: the text that
    is decoded is the reply as [_extract_json] cleans it. *)
Lemma analyze_intent_cases (kernel : Kernel) (query : pystr) :
  _analyze_intent json_loads kernel query =
  match invoke_prompt kernel (IntentPrompt (JString query)) with
  | Ok reply =>
      match (data <- json_loads (_extract_json (str_or reply (py "[]"))) ;;
             items <- iterate data ;;
             comprehension Intent_of_kwargs items) with
      | Ok intents => Ok intents
      | Raise _ => Ok [Intent_init GENERAL_KNOWLEDGE (JString query) JNull]
      end
  | Raise _ => Ok [Intent_init GENERAL_KNOWLEDGE (JString query) JNull]
  end.
Proof.
  unfold _analyze_intent. rewrite try_except_Exception.
  unfold analyze_intent, kernel_invoke.
  destruct (invoke_prompt kernel (IntentPrompt (JString query))) as [reply | e];
    cbn [bind]; [| reflexivity].
  rewrite str_or_FunctionResult_str.
  destruct (json_loads _) as [data | e]; cbn [bind]; [| reflexivity].
  destruct (iterate data) as [items | e]; cbn [bind]; [| reflexivity].
  destruct (comprehension Intent_of_kwargs items); reflexivity.
Qed.

Lemma analyze_intent_never_raises (kernel : Kernel) (query : pystr) :
  exists intents, _analyze_intent json_loads kernel query = Ok intents.
Proof.
  rewrite analyze_intent_cases.
  destruct (invoke_prompt kernel _) as [reply | e]; [| eexists; reflexivity].
  match goal with |- context [match ?c with Ok _ => _ | Raise _ => _ end] =>
    destruct c end; eexists; reflexivity.
Qed.

Lemma analyze_intent_service_error (kernel : Kernel) (query : pystr) (e : exn) :
  invoke_prompt kernel (IntentPrompt (JString query)) = Raise e ->
  _analyze_intent json_loads kernel query =
  Ok [Intent_init GENERAL_KNOWLEDGE (JString query) JNull].
Proof. intros H. rewrite analyze_intent_cases, H. reflexivity. Qed.

Lemma analyze_intent_undecodable (kernel : Kernel) (query : pystr)
      (reply : pyobj) (e : exn) :
  invoke_prompt kernel (IntentPrompt (JString query)) = Ok reply ->
  json_loads (_extract_json (str_or reply (py "[]"))) = Raise e ->
  _analyze_intent json_loads kernel query =
  Ok [Intent_init GENERAL_KNOWLEDGE (JString query) JNull].
Proof. intros H1 H2. rewrite analyze_intent_cases, H1, H2. reflexivity. Qed.

(** When every item makes an [Intent], the classifier returns them all, in
    order. *)
Lemma analyze_intent_valid_items (kernel : Kernel) (query : pystr)
      (reply : pyobj) (data : json) (items : list json) (intents : list Intent) :
  invoke_prompt kernel (IntentPrompt (JString query)) = Ok reply ->
  json_loads (_extract_json (str_or reply (py "[]"))) = Ok data ->
  iterate data = Ok items ->
  comprehension Intent_of_kwargs items = Ok intents ->
  _analyze_intent json_loads kernel query = Ok intents.
Proof.
  intros H1 H2 H3 H4. rewrite analyze_intent_cases, H1, H2. cbn [bind].
  rewrite H3. cbn [bind]. rewrite H4. reflexivity.
Qed.

(** Decoded data without elements (an empty list, an empty object, an empty
    string) gives the empty sequence. *)
Lemma analyze_intent_empty_data (kernel : Kernel) (query : pystr)
      (reply : pyobj) (data : json) :
  invoke_prompt kernel (IntentPrompt (JString query)) = Ok reply ->
  json_loads (_extract_json (str_or reply (py "[]"))) = Ok data ->
  iterate data = Ok [] ->
  _analyze_intent json_loads kernel query = Ok [].
Proof.
  intros H1 H2 H3.
  apply (analyze_intent_valid_items kernel query reply data []); auto.
Qed.

(** C1, at the input where the code departs from it: when the completion
    service returns a null (false) reply, the text decoded is ["[]"] and the
    classifier returns the empty sequence, not the GeneralKnowledge
    fallback. *)
Theorem analyze_intent_null_reply (kernel : Kernel) (query : pystr) (reply : pyobj) :
  invoke_prompt kernel (IntentPrompt (JString query)) = Ok reply ->
  truthy reply = false ->
  json_loads (py "[]") = Ok (JArray []) ->
  _analyze_intent json_loads kernel query = Ok [].
Proof.
  intros Hreply Hfalse Hloads.
  rewrite analyze_intent_cases, Hreply.
  unfold str_or. rewrite Hfalse, extract_json_brackets, Hloads. reflexivity.
Qed.

(** C5, at the inputs where the code departs from it: when one item of the
    decoded list cannot be made an [Intent], [_analyze_intent] keeps none of
    the items and returns the single GeneralKnowledge fallback. *)
Theorem analyze_intent_one_invalid_item (kernel : Kernel) (query : pystr)
        (reply : pyobj) (items : list json) (item : json) (e : exn) :
  invoke_prompt kernel (IntentPrompt (JString query)) = Ok reply ->
  json_loads (_extract_json (str_or reply (py "[]"))) = Ok (JArray items) ->
  In item items ->
  Intent_of_kwargs item = Raise e ->
  _analyze_intent json_loads kernel query =
  Ok [Intent_init GENERAL_KNOWLEDGE (JString query) JNull].
Proof.
  intros Hreply Hloads Hin Hitem.
  rewrite analyze_intent_cases, Hreply, Hloads. cbn [bind iterate].
  destruct (comprehension_raises Intent_of_kwargs items item e Hin Hitem) as [e' ->].
  reflexivity.
Qed.

(* ----------------------------------------------------------------- *)
(** *** [parse_intent_response], which the orchestrator does not call *)

Lemma IntentType_of_raises (v : json) (e : exn) :
  IntentType_of v = Raise e -> e = not_a_valid_IntentType.
Proof.
  unfold IntentType_of. destruct v; try (intros H; injection H as <-; reflexivity).
  destruct (List.find _ members); [discriminate |].
  intros H; injection H as <-; reflexivity.
Qed.

Lemma parse_item_object (fields : list (pystr * json)) (e : exn) :
  parse_item (JObject fields) = Raise e ->
  isinstance e [KeyError; ValueError] = true.
Proof.
  unfold parse_item. cbn [subscript dot_get].
  destruct (dict_get (py "type") fields) as [t |]; cbn [bind];
    [| intros H; injection H as <-; reflexivity].
  destruct (IntentType_of t) as [t' | e'] eqn:Ht; cbn [bind].
  - destruct (dict_get (py "query") fields) as [q |]; cbn [bind];
      [discriminate | intros H; injection H as <-; reflexivity].
  - intros H; injection H as <-.
    rewrite (IntentType_of_raises t e' Ht). reflexivity.
Qed.

(** Over a list of objects the loop keeps, in order, the items that make an
    [Intent] and drops the others one by one. *)
Lemma parse_items_objects (items : list json) (intents : list Intent) :
  Forall is_object items ->
  parse_items items intents =
  Ok (intents ++
      flat_map (fun item => match parse_item item with
                            | Ok intent => [intent]
                            | Raise _ => []
                            end) items).
Proof.
  intros Hobj. revert intents.
  induction Hobj as [| item items Hitem _ IH]; intros intents.
  - cbn. rewrite app_nil_r. reflexivity.
  - cbn [parse_items flat_map]. destruct item; try contradiction.
    destruct (parse_item (JObject fields)) as [intent | e] eqn:Hp;
      cbn [bind try_except].
    + rewrite IH, <- app_assoc. reflexivity.
    + rewrite (parse_item_object fields e Hp). cbn [bind].
      rewrite IH. reflexivity.
Qed.

Lemma parse_intent_response_objects (json_response : pystr) (original_query : json)
      (items : list json) :
  json_loads json_response = Ok (JArray items) ->
  Forall is_object items ->
  parse_intent_response json_loads json_response original_query =
  Ok (let kept := flat_map (fun item => match parse_item item with
                                        | Ok intent => [intent]
                                        | Raise _ => []
                                        end) items in
      if nonempty kept then kept
      else [Intent_init GENERAL_KNOWLEDGE original_query JNull]).
Proof.
  intros Hloads Hobj. unfold parse_intent_response.
  rewrite Hloads. cbn [bind].
  destruct items as [| item items]; [reflexivity |].
  cbn [nonempty negb]. rewrite (parse_items_objects _ [] Hobj).
  cbn [bind app]. cbv zeta.
  destruct (flat_map _ (item :: items)); reflexivity.
Qed.

(* ----------------------------------------------------------------- *)
(** *** Executing the intents of a turn *)

Lemma comprehension_ext {A B} (f g : A -> outcome B) (l : list A) :
  (forall a, In a l -> f a = g a) -> comprehension f l = comprehension g l.
Proof.
  induction l as [| x l IH]; intros H; [reflexivity |].
  cbn [comprehension]. rewrite (H x (or_introl eq_refl)), IH; [reflexivity |].
  intros a Ha. apply H. right. exact Ha.
Qed.

Lemma comprehension_total {A B} (f : A -> outcome B) (l : list A) :
  (forall a, In a l -> exists b, f a = Ok b) ->
  exists bs, comprehension f l = Ok bs /\ Forall2 (fun a b => f a = Ok b) l bs.
Proof.
  induction l as [| x l IH]; intros H.
  - exists []. split; [reflexivity | constructor].
  - destruct (H x (or_introl eq_refl)) as [b Hb].
    destruct IH as (bs & Hbs & Hall); [intros a Ha; apply H; right; exact Ha |].
    exists (b :: bs). split.
    + cbn [comprehension]. rewrite Hb, Hbs. reflexivity.
    + constructor; assumption.
Qed.

Lemma run_sequentially_comprehension (execute : Intent -> outcome AgentResponse)
      (intents : list Intent) (responses : list AgentResponse) :
  run_sequentially execute intents responses =
  (rs <- comprehension execute intents ;; Ok (responses ++ rs)).
Proof.
  revert responses. induction intents as [| intent intents IH]; intros responses.
  - cbn. rewrite app_nil_r. reflexivity.
  - cbn [run_sequentially comprehension].
    destruct (execute intent) as [r | e]; cbn [bind]; [| reflexivity].
    rewrite IH. destruct (comprehension execute intents); cbn [bind]; [| reflexivity].
    rewrite <- app_assoc. reflexivity.
Qed.

(** The parallel branch: every outcome is looked at on its own, at the
    index of its intent. *)
Lemma convert_exceptions_comprehension (execute : Intent -> outcome AgentResponse)
      (intents : list Intent) (result : list AgentResponse) :
  convert_exceptions (combine intents (gather (map execute intents))) result =
  (rs <- comprehension
           (fun intent =>
              match execute intent with
              | Ok response => Ok response
              | Raise e =>
                  agent <- dot_value (type intent) ;;
                  Ok (AgentResponse_init agent (type intent)
                        (py "Error: " ++ exn_str e) false None)
              end) intents ;;
   Ok (result ++ rs)).
Proof.
  unfold gather. revert result.
  induction intents as [| intent intents IH]; intros result.
  - cbn. rewrite app_nil_r. reflexivity.
  - cbn [map combine convert_exceptions comprehension].
    destruct (execute intent) as [r | e]; cbn [bind].
    + rewrite IH. destruct (comprehension _ intents); cbn [bind]; [| reflexivity].
      rewrite <- app_assoc. reflexivity.
    + destruct (dot_value (type intent)) as [agent |]; cbn [bind]; [| reflexivity].
      rewrite IH. destruct (comprehension _ intents); cbn [bind]; [| reflexivity].
      rewrite <- app_assoc. reflexivity.
Qed.

(** With an executor that returns for every intent, both branches return
    its responses in the order of the intents. *)
Lemma execute_agents_with_total (execute : Intent -> outcome AgentResponse)
      (settings : OrchestrationSettings) (intents : list Intent) :
  (forall intent, exists response, execute intent = Ok response) ->
  exists responses,
    execute_agents_with execute settings intents = Ok responses /\
    comprehension execute intents = Ok responses /\
    Forall2 (fun intent response => execute intent = Ok response) intents responses.
Proof.
  intros Htotal.
  destruct (comprehension_total execute intents) as (rs & Hrs & Hall);
    [intros a _; apply Htotal |].
  exists rs. split; [| split; assumption].
  unfold execute_agents_with. destruct (enable_parallel_execution settings).
  - rewrite convert_exceptions_comprehension.
    rewrite (comprehension_ext _ execute), Hrs; [reflexivity |].
    intros a _. destruct (Htotal a) as [r ->]. reflexivity.
  - rewrite run_sequentially_comprehension, Hrs. reflexivity.
Qed.

(** C3: for every intent sequence, with the responders of the kernel
    answering as functions of what they are asked, the parallel and the
    sequential mode return the same responses, the one at index [i] being
    the response of the executor to the intent at index [i]; and in parallel
    mode, whatever is run for each intent, an exception escaping a branch
    becomes a failed response at the index of its intent, every other index
    holding the response of its own branch. *)
Theorem parallel_equals_sequential :
  (forall (kernel : Kernel) (intents : list Intent) (max_calls seconds : Z),
     exists responses,
       _execute_agents str_lower coroutine_repr
         (mk_OrchestrationSettings max_calls seconds true) kernel intents
       = Ok responses /\
       _execute_agents str_lower coroutine_repr
         (mk_OrchestrationSettings max_calls seconds false) kernel intents
       = Ok responses /\
       Forall2 (fun intent response =>
                  _execute_agent_for_intent str_lower coroutine_repr kernel intent
                  = Ok response) intents responses)
  /\
  (forall (execute : Intent -> outcome AgentResponse) (intents : list Intent)
          (max_calls seconds : Z),
     Forall well_typed intents ->
     exists responses,
       execute_agents_with execute
         (mk_OrchestrationSettings max_calls seconds true) intents
       = Ok responses /\
       Forall2 (fun intent response =>
                  match execute intent with
                  | Ok r => response = r
                  | Raise e =>
                      exists t, type intent = Member t /\
                                response = guarded_failure t e
                  end) intents responses).
Proof.
  split.
  - intros kernel intents max_calls seconds. unfold _execute_agents.
    destruct (execute_agents_with_total
                (_execute_agent_for_intent str_lower coroutine_repr kernel)
                (mk_OrchestrationSettings max_calls seconds true) intents)
      as (rs & Hpar & Hcomp & Hall);
      [intros intent; apply execute_agent_for_intent_total |].
    destruct (execute_agents_with_total
                (_execute_agent_for_intent str_lower coroutine_repr kernel)
                (mk_OrchestrationSettings max_calls seconds false) intents)
      as (rs' & Hseq & Hcomp' & _);
      [intros intent; apply execute_agent_for_intent_total |].
    assert (rs' = rs) by congruence. subst rs'.
    exists rs. repeat split; assumption.
  - intros execute intents max_calls seconds Htyped.
    unfold execute_agents_with. cbn [enable_parallel_execution].
    rewrite convert_exceptions_comprehension.
    match goal with |- context [comprehension ?f intents] =>
      destruct (comprehension_total f intents) as (rs & Hrs & Hall) end.
    { intros intent Hin.
      rewrite Forall_forall in Htyped. destruct (Htyped intent Hin) as [t Ht].
      destruct (execute intent); [eexists; reflexivity |].
      rewrite Ht. eexists. reflexivity. }
    exists rs. rewrite Hrs. split; [reflexivity |].
    clear Hrs. induction Hall as [| intent r intents rs Hhd _ IH]; constructor.
    + inversion Htyped as [| ? ? [t Ht] _]; subst.
      destruct (execute intent) as [r' | e].
      * congruence.
      * rewrite Ht in Hhd. cbn [dot_value bind] in Hhd.
        exists t. split; [exact Ht |]. injection Hhd as <-. reflexivity.
    + apply IH. inversion Htyped; assumption.
Qed.

(* ----------------------------------------------------------------- *)
(** *** The turn *)

Lemma tbind_call_ok {A B} (ev : Event) (a : A) (k : A -> traced B) :
  tbind (call ev (Ok a)) k = (ev :: fst (k a), snd (k a)).
Proof. unfold tbind, call. destruct (k a). reflexivity. Qed.

Lemma tbind_call_raise {A B} (ev : Event) (e : exn) (k : A -> traced B) :
  tbind (call ev (Raise e)) k = ([ev], Raise e).
Proof. reflexivity. Qed.

Lemma tbind_uncalled_ok {A B} (a : A) (k : A -> traced B) :
  tbind (uncalled (Ok a)) k = k a.
Proof. unfold tbind, uncalled. destruct (k a). reflexivity. Qed.

Lemma len_nonneg {A} (l : list A) : (0 <= len l)%Z.
Proof. unfold len. lia. Qed.

Lemma apply_max_agent_calls_over (settings : OrchestrationSettings)
      (intents : list Intent) :
  (0 <= max_agent_calls settings)%Z ->
  (max_agent_calls settings < len intents)%Z ->
  apply_max_agent_calls settings intents =
  firstn (Z.to_nat (max_agent_calls settings)) intents.
Proof.
  intros Hpos Hlt. unfold apply_max_agent_calls, slice_to.
  destruct (Z.ltb_spec (max_agent_calls settings) (len intents)); [| lia].
  destruct (Z.leb_spec 0 (max_agent_calls settings)); [reflexivity | lia].
Qed.

Lemma apply_max_agent_calls_within (settings : OrchestrationSettings)
      (intents : list Intent) :
  (len intents <= max_agent_calls settings)%Z ->
  apply_max_agent_calls settings intents = intents.
Proof.
  intros Hle. unfold apply_max_agent_calls.
  destruct (Z.ltb_spec (max_agent_calls settings) (len intents)); [lia | reflexivity].
Qed.

Lemma apply_max_agent_calls_prefix (settings : OrchestrationSettings)
      (intents : list Intent) :
  exists n, apply_max_agent_calls settings intents = firstn n intents.
Proof.
  unfold apply_max_agent_calls, slice_to.
  destruct (max_agent_calls settings <? len intents)%Z.
  - destruct (0 <=? max_agent_calls settings)%Z; eexists; reflexivity.
  - exists (List.length intents). rewrite firstn_all. reflexivity.
Qed.

Lemma Forall_prefix {A} (P : A -> Prop) (n : nat) (l : list A) :
  Forall P l -> Forall P (firstn n l).
Proof.
  revert l. induction n as [| n IH]; intros l H; [constructor |].
  destruct H; cbn [firstn]; constructor; auto.
Qed.

Lemma type_values_logged (intents : list Intent) :
  Forall well_typed intents ->
  exists values, comprehension (fun i => dot_value (type i)) intents = Ok values.
Proof.
  intros Htyped.
  destruct (comprehension_total (fun i => dot_value (type i)) intents)
    as (values & Hvalues & _).
  - intros intent Hin. rewrite Forall_forall in Htyped.
    destruct (Htyped intent Hin) as [t ->]. eexists. reflexivity.
  - exists values. exact Hvalues.
Qed.

Lemma type_values_well_typed (intents : list Intent) (values : list pystr) :
  comprehension (fun i => dot_value (type i)) intents = Ok values ->
  Forall well_typed intents.
Proof.
  revert values. induction intents as [| i intents IH]; intros values;
    [constructor |].
  cbn [comprehension]. destruct (type i) as [t | v] eqn:Ht; cbn [dot_value bind];
    [| discriminate].
  destruct (comprehension (fun i0 => dot_value (type i0)) intents) as [vs | e];
    cbn [bind]; [| discriminate].
  intros _. constructor.
  - exists t. exact Ht.
  - apply (IH vs). reflexivity.
Qed.

(** Once the classifier has returned and the types of the limited intents
    are members, the block calls [_execute_agents] with the limited
    sequence: nothing is awaited in between. *)
Lemma timed_block_reaches_executor (settings : OrchestrationSettings)
      (kernel : Kernel) (user_message : pystr) (intents : list Intent) :
  _analyze_intent json_loads kernel user_message = Ok intents ->
  Forall well_typed (apply_max_agent_calls settings intents) ->
  exists rest,
    fst (timed_block json_loads str_lower coroutine_repr settings kernel user_message) =
    TimeoutEntered (timeout_seconds settings)
      :: AnalyzeIntentCalled user_message
      :: ExecuteAgentsCalled (apply_max_agent_calls settings intents)
      :: rest.
Proof.
  intros Hanalyze Hlimited.
  destruct (type_values_logged _ Hlimited) as [values Hvalues].
  unfold timed_block.
  rewrite tbind_call_ok, Hanalyze, tbind_call_ok. cbv zeta.
  rewrite Hvalues, tbind_uncalled_ok.
  destruct (_execute_agents str_lower coroutine_repr settings kernel
              (apply_max_agent_calls settings intents)) as [responses | e].
  - rewrite tbind_call_ok. cbn [fst]. eexists. reflexivity.
  - rewrite tbind_call_raise. cbn [fst]. eexists. reflexivity.
Qed.

(** Whatever the block passes to [_execute_agents] is the limited sequence,
    whose types have been logged. *)
Lemma timed_block_executor_calls (settings : OrchestrationSettings)
      (kernel : Kernel) (user_message : pystr) (intents passed : list Intent) :
  _analyze_intent json_loads kernel user_message = Ok intents ->
  In (ExecuteAgentsCalled passed)
     (fst (timed_block json_loads str_lower coroutine_repr settings kernel
             user_message)) ->
  passed = apply_max_agent_calls settings intents /\ Forall well_typed passed.
Proof.
  intros Hanalyze. unfold timed_block.
  rewrite tbind_call_ok, Hanalyze, tbind_call_ok. cbv zeta.
  destruct (comprehension (fun i => dot_value (type i))
              (apply_max_agent_calls settings intents)) as [values | e] eqn:Hvalues.
  - rewrite tbind_uncalled_ok.
    pose proof (type_values_well_typed _ values Hvalues) as Htyped.
    destruct (_execute_agents str_lower coroutine_repr settings kernel
                (apply_max_agent_calls settings intents)) as [responses | e].
    + rewrite tbind_call_ok.
      destruct (_synthesize_response kernel user_message responses) as [final | e].
      * rewrite tbind_call_ok. cbn [fst snd call].
        intros [H | [H | [H | [H | [H | []]]]]]; try discriminate H.
        injection H as <-. split; [reflexivity | exact Htyped].
      * rewrite tbind_call_raise. cbn [fst snd].
        intros [H | [H | [H | [H | []]]]]; try discriminate H.
        injection H as <-. split; [reflexivity | exact Htyped].
    + rewrite tbind_call_raise. cbn [fst snd].
      intros [H | [H | [H | []]]]; try discriminate H.
      injection H as <-. split; [reflexivity | exact Htyped].
  - cbn [tbind uncalled fst snd app].
    intros [H | [H | []]]; discriminate H.
Qed.

(** C4, as amended: the limit is positional for a limit that is not
    negative.  A classified sequence longer than [max_agent_calls] is cut to
    its first [max_agent_calls] intents, in their order, and a sequence
    within the limit is left as it is.  Once the classifier has returned,
    the sequence so limited is what the block passes to execution when the
    types of its intents are all members of [IntentType], and nothing else
    is ever passed to execution. *)
Theorem max_agent_calls_is_positional (settings : OrchestrationSettings)
        (intents : list Intent) :
  ((0 <= max_agent_calls settings)%Z ->
   (max_agent_calls settings < len intents)%Z ->
   apply_max_agent_calls settings intents =
   firstn (Z.to_nat (max_agent_calls settings)) intents)
  /\
  ((len intents <= max_agent_calls settings)%Z ->
   apply_max_agent_calls settings intents = intents)
  /\
  (forall (kernel : Kernel) (user_message : pystr),
     _analyze_intent json_loads kernel user_message = Ok intents ->
     Forall well_typed (apply_max_agent_calls settings intents) ->
     exists rest,
       fst (timed_block json_loads str_lower coroutine_repr settings kernel
              user_message) =
       TimeoutEntered (timeout_seconds settings)
         :: AnalyzeIntentCalled user_message
         :: ExecuteAgentsCalled (apply_max_agent_calls settings intents)
         :: rest)
  /\
  (forall (kernel : Kernel) (user_message : pystr) (passed : list Intent),
     _analyze_intent json_loads kernel user_message = Ok intents ->
     In (ExecuteAgentsCalled passed)
        (fst (timed_block json_loads str_lower coroutine_repr settings kernel
                user_message)) ->
     passed = apply_max_agent_calls settings intents /\ Forall well_typed passed).
Proof.
  split; [| split; [| split]].
  - apply apply_max_agent_calls_over.
  - apply apply_max_agent_calls_within.
  - intros kernel user_message. apply timed_block_reaches_executor.
  - intros kernel user_message passed. apply timed_block_executor_calls.
Qed.

Lemma lstrip_whitespace (t : pystr) : forallb isspace t = true -> lstrip t = [].
Proof.
  induction t as [| c t IH]; cbn [forallb lstrip]; [reflexivity |].
  intros H. apply andb_prop in H. destruct H as [-> H]. auto.
Qed.

Lemma strip_whitespace (t : pystr) : forallb isspace t = true -> strip t = [].
Proof.
  intros H. unfold strip. rewrite (lstrip_whitespace t H). reflexivity.
Qed.

Lemma too_long_text :
  py "Message too long. Maximum " ++ str_of_int MAX_MESSAGE_LENGTH
  ++ py " characters allowed."
  = py "Message too long. Maximum 4000 characters allowed.".
Proof. vm_compute. reflexivity. Qed.

(** C7, as amended: a message that is missing, empty or made of white space
    only, and a message that is longer than 4000 characters once the white
    space around it is stripped, is answered by its rejection message and by
    nothing else: no timeout is entered, and neither the classifier, nor the
    executor, nor the synthesizer is called. *)
Theorem rejected_messages (settings : OrchestrationSettings) (kernel : Kernel) :
  on_message_activity json_loads str_lower coroutine_repr settings kernel None
  = [Sent (py "Please enter a message.")]
  /\
  (forall t, forallb isspace t = true ->
     on_message_activity json_loads str_lower coroutine_repr settings kernel (Some t)
     = [Sent (py "Please enter a message.")])
  /\
  (forall t, (4000 < len (strip t))%Z ->
     on_message_activity json_loads str_lower coroutine_repr settings kernel (Some t)
     = [Sent (py "Message too long. Maximum 4000 characters allowed.")]).
Proof.
  split; [reflexivity | split].
  - intros t Hspace. unfold on_message_activity. cbn [opt_truthy].
    rewrite (strip_whitespace t Hspace). destruct (nonempty t); reflexivity.
  - intros t Hlong. unfold on_message_activity. cbn [opt_truthy].
    destruct t as [| c t]; [vm_compute in Hlong; discriminate |].
    cbn [nonempty]. destruct (strip (c :: t)) as [| c' t'] eqn:Hs;
      [vm_compute in Hlong; discriminate |].
    cbn [nonempty negb].
    destruct (Z.ltb_spec MAX_MESSAGE_LENGTH (len (c' :: t')));
      [| unfold MAX_MESSAGE_LENGTH in *; lia].
    rewrite too_long_text. reflexivity.
Qed.

(** A block that raises has sent nothing. *)
Lemma timed_block_raise_sends_nothing (settings : OrchestrationSettings)
      (kernel : Kernel) (user_message : pystr) (ex : exn) (text : pystr) :
  snd (timed_block json_loads str_lower coroutine_repr settings kernel user_message)
  = Raise ex ->
  ~ In (Sent text)
       (fst (timed_block json_loads str_lower coroutine_repr settings kernel
               user_message)).
Proof.
  unfold timed_block. rewrite tbind_call_ok. cbn [fst snd].
  destruct (_analyze_intent json_loads kernel user_message) as [intents | e].
  - rewrite tbind_call_ok. cbv zeta. cbn [fst snd].
    destruct (comprehension _ (apply_max_agent_calls settings intents)) as [vs | e].
    + rewrite tbind_uncalled_ok.
      destruct (_execute_agents str_lower coroutine_repr settings kernel _) as [rs | e].
      * rewrite tbind_call_ok. cbn [fst snd].
        destruct (_synthesize_response kernel user_message rs) as [final | e].
        -- rewrite tbind_call_ok. cbn [fst snd call]. discriminate.
        -- rewrite tbind_call_raise. cbn [fst snd In].
           intros _ [H | [H | [H | [H | []]]]]; discriminate.
      * rewrite tbind_call_raise. cbn [fst snd In].
        intros _ [H | [H | [H | []]]]; discriminate.
    + cbn [tbind uncalled fst snd In].
      intros _ [H | [H | []]]; discriminate.
  - rewrite tbind_call_raise. cbn [fst snd In].
    intros _ [H | [H | []]]; discriminate.
Qed.

(** The [except asyncio.TimeoutError] clause: when the block of an accepted
    message ends in a [TimeoutError], the one message sent in the turn is the
    fixed timeout message. *)
Lemma timeout_error_reply (settings : OrchestrationSettings) (kernel : Kernel)
      (t : pystr) (ex : exn) :
  nonempty (strip t) = true ->
  (len (strip t) <= MAX_MESSAGE_LENGTH)%Z ->
  snd (timed_block json_loads str_lower coroutine_repr settings kernel (strip t))
  = Raise ex ->
  exn_cls ex = TimeoutError ->
  filter (fun ev => match ev with Sent _ => true | _ => false end)
         (on_message_activity json_loads str_lower coroutine_repr settings kernel
            (Some t))
  = [Sent (py "The request timed out. Please try a simpler query or try again later.")].
Proof.
  intros Hne Hlen Hraise Hcls.
  pose proof (fun text =>
                timed_block_raise_sends_nothing settings kernel (strip t) ex text Hraise)
    as Hquiet.
  unfold on_message_activity. cbn [opt_truthy].
  assert (Ht : nonempty t = true) by (destruct t; [discriminate Hne | reflexivity]).
  rewrite Ht, Hne. cbn [negb].
  destruct (Z.ltb_spec MAX_MESSAGE_LENGTH (len (strip t))); [lia |].
  destruct (timed_block json_loads str_lower coroutine_repr settings kernel (strip t))
    as [log r].
  cbn [fst snd] in Hraise, Hquiet. subst r.
  unfold isinstance. rewrite Hcls. cbn [existsb issubclass exn_class_eqb orb].
  rewrite filter_app. cbn [filter].
  replace (filter _ log) with (@nil Event); [reflexivity |].
  symmetry. clear - Hquiet. induction log as [| ev log IH]; [reflexivity |].
  cbn [filter]. destruct ev;
    try (apply IH; intros text Hin; apply (Hquiet text); right; exact Hin).
  exfalso. apply (Hquiet text). left. reflexivity.
Qed.

End Properties.

(* ================================================================= *)
(** ** The statements at sample inputs *)

Lemma analyze_intent_null_reply_example :
  _analyze_intent loads_sample (null_kernel sample_context) (py "hello") = Ok [].
Proof.
  apply (analyze_intent_null_reply loads_sample (null_kernel sample_context)
           (py "hello") (mk_pyobj false (py "None")));
    reflexivity.
Defined.

Lemma analyze_intent_one_invalid_item_example :
  _analyze_intent loads_sample (replying_kernel two_items_text sample_context)
    (py "Check emails and test")
  = Ok [Intent_init GENERAL_KNOWLEDGE (JString (py "Check emails and test")) JNull]
  /\
  parse_intent_response loads_sample two_items_text
    (JString (py "Check emails and test"))
  = Ok [email_intent].
Proof.
  split.
  - apply (analyze_intent_one_invalid_item loads_sample
             (replying_kernel two_items_text sample_context)
             (py "Check emails and test")
             (FunctionResult (str_obj two_items_text))
             two_items
             (JObject [ (py "type", JString (py "InvalidType"));
                        (py "query", JString (py "test")) ])
             not_a_valid_IntentType).
    + reflexivity.
    + vm_compute. reflexivity.
    + right. left. reflexivity.
    + vm_compute. reflexivity.
  - vm_compute. reflexivity.
Defined.

Lemma execute_agent_for_intent_example :
  exists response,
    _execute_agent_for_intent ascii_lower sample_repr
      (failing_kernel sample_context) docker_intent = Ok response /\
    success response = false /\
    content response = py "Error: connection reset" /\
    error response = Some (py "connection reset").
Proof.
  destruct (execute_agent_for_intent_never_raises ascii_lower sample_repr
              (failing_kernel sample_context) docker_intent)
    as (response & Hexec & _ & Hraise).
  exists response. split; [exact Hexec |].
  destruct (Hraise (mk_exn Exception (py "connection reset")) eq_refl)
    as (t & _ & ->).
  repeat split.
Defined.

Lemma parallel_isolates_failure_example :
  exists responses,
    execute_agents_with flaky_executor sample_settings [email_intent; docker_intent]
    = Ok responses /\
    Forall2 (fun intent response =>
               match flaky_executor intent with
               | Ok r => response = r
               | Raise e => exists t, type intent = Member t /\
                                      response = guarded_failure t e
               end) [email_intent; docker_intent] responses.
Proof.
  apply (proj2 (parallel_equals_sequential ascii_lower sample_repr)
           flaky_executor [email_intent; docker_intent] 5%Z 30%Z).
  repeat constructor; eexists; reflexivity.
Defined.

Lemma max_agent_calls_example :
  apply_max_agent_calls (mk_OrchestrationSettings 1 30 true)
    [email_intent; docker_intent]
  = [email_intent]
  /\
  exists rest,
    fst (timed_block loads_calendar_and_docker ascii_lower sample_repr
           (mk_OrchestrationSettings 1 30 true)
           (replying_kernel calendar_and_docker_text sample_context) (py "hello"))
    = TimeoutEntered 30
        :: AnalyzeIntentCalled (py "hello")
        :: ExecuteAgentsCalled
             [mk_Intent (Member M365_CALENDAR)
                (JString (py "What meetings do I have tomorrow")) JNull]
        :: rest.
Proof.
  split.
  - apply (proj1 (max_agent_calls_is_positional loads_sample ascii_lower sample_repr
                    (mk_OrchestrationSettings 1 30 true)
                    [email_intent; docker_intent])).
    + cbn. lia.
    + vm_compute. reflexivity.
  - apply (proj1 (proj2 (proj2
             (max_agent_calls_is_positional loads_calendar_and_docker ascii_lower
                sample_repr (mk_OrchestrationSettings 1 30 true)
                [ mk_Intent (Member M365_CALENDAR)
                    (JString (py "What meetings do I have tomorrow")) JNull;
                  mk_Intent (Member GENERAL_KNOWLEDGE)
                    (JString (py "What is Docker")) JNull ])))
             (replying_kernel calendar_and_docker_text sample_context) (py "hello")).
    + vm_compute. reflexivity.
    + repeat constructor. eexists. reflexivity.
Defined.

(** C4 as it was stated fails for a negative limit, which cuts the sequence
    from its end: with a limit of -1 the first of two intents is passed to
    execution.  It also fails for a sequence within the limit that holds an
    intent whose type is not a member of [IntentType]: nothing is passed to
    execution. *)
Lemma negative_limit_drops_the_last_intent :
  firstn 3
    (on_message_activity loads_calendar_and_docker ascii_lower sample_repr
       (mk_OrchestrationSettings (-1) 30 true)
       (replying_kernel calendar_and_docker_text sample_context)
       (Some (py "hello")))
  = [ TimeoutEntered 30;
      AnalyzeIntentCalled (py "hello");
      ExecuteAgentsCalled
        [mk_Intent (Member M365_CALENDAR)
           (JString (py "What meetings do I have tomorrow")) JNull] ]
  /\
  on_message_activity loads_numbers ascii_lower sample_repr sample_settings
    (replying_kernel numbered_type_text sample_context) (Some (py "hello"))
  = [ TimeoutEntered 30;
      AnalyzeIntentCalled (py "hello");
      Sent (py "Sorry, an error occurred processing your request. Please try again.") ].
Proof. split; vm_compute; reflexivity. Qed.

(** C7 as it was stated fails on a message of 4001 characters that is
    shorter once stripped: the turn goes on to the classifier, the executor
    and the synthesizer. *)
Lemma padded_message_is_processed :
  len padded_message = 4001%Z /\
  on_message_activity loads_sample ascii_lower sample_repr sample_settings
    (replying_kernel (py "ok") sample_context) (Some padded_message)
  = [ TimeoutEntered 30;
      AnalyzeIntentCalled (py "a");
      ExecuteAgentsCalled [mk_Intent (Member GENERAL_KNOWLEDGE) (JString (py "a")) JNull];
      SynthesizeResponseCalled (py "a")
        [mk_AgentResponse (py "azure_openai") (Member GENERAL_KNOWLEDGE) (py "ok")
           true None []];
      Sent (py "ok") ].
Proof. split; vm_compute; reflexivity. Qed.

Lemma rejected_messages_example :
  on_message_activity loads_sample ascii_lower sample_repr sample_settings
    (replying_kernel (py "ok") sample_context) (Some (py "   "))
  = [Sent (py "Please enter a message.")]
  /\
  on_message_activity loads_sample ascii_lower sample_repr sample_settings
    (replying_kernel (py "ok") sample_context) (Some (repeat 97%N 4001))
  = [Sent (py "Message too long. Maximum 4000 characters allowed.")].
Proof.
  destruct (rejected_messages loads_sample ascii_lower sample_repr sample_settings
              (replying_kernel (py "ok") sample_context)) as (_ & Hblank & Hlong).
  split.
  - apply Hblank. reflexivity.
  - apply Hlong. vm_compute. reflexivity.
Defined.

(** C8 as it was stated fails in the unknown-type branch: the response has
    failed and carries no error. *)
Lemma unknown_type_response_has_no_error :
  _execute_agent_for_intent ascii_lower sample_repr (null_kernel sample_context)
    numbered_intent
  = Ok (mk_AgentResponse (py "unknown") (Other (NNumber (py "5")))
          (py "I'm not sure how to handle that request.") false None []).
Proof. vm_compute. reflexivity. Qed.

Lemma failed_response_shape_example :
  (exists e, dispatch ascii_lower sample_repr (failing_kernel sample_context)
               docker_intent = Raise e /\
             py "Error: connection reset" = py "Error: " ++ exn_str e /\
             Some (py "connection reset") = Some (exn_str e))
  \/
  ((forall t, type_is (type docker_intent) t = false) /\
   py "GeneralKnowledge" = py "unknown" /\
   py "Error: connection reset" = py "I'm not sure how to handle that request." /\
   Some (py "connection reset") = None).
Proof.
  apply (failed_response_shape ascii_lower sample_repr
           (failing_kernel sample_context) docker_intent
           (mk_AgentResponse (py "GeneralKnowledge") (Member GENERAL_KNOWLEDGE)
              (py "Error: connection reset") false
              (Some (py "connection reset")) []));
    vm_compute; reflexivity.
Defined.

Lemma general_knowledge_empty_result_example :
  _execute_agent_for_intent ascii_lower sample_repr (null_kernel sample_context)
    docker_intent
  = Ok (mk_AgentResponse (py "azure_openai") (Member GENERAL_KNOWLEDGE)
          (py "I'm unable to answer that question at the moment.") true None []).
Proof.
  apply (proj1 (general_knowledge_empty_result ascii_lower sample_repr
                  (null_kernel sample_context) docker_intent
                  (py "What is Docker?") (mk_pyobj false (py "None"))
                  eq_refl eq_refl eq_refl)).
  reflexivity.
Defined.

(** C9 as it was stated fails for an empty result: a completion whose text
    is empty is an object, hence true, and its empty text is the content of
    the response. *)
Lemma empty_completion_is_not_replaced :
  _execute_agent_for_intent ascii_lower sample_repr
    (replying_kernel [] sample_context) docker_intent
  = Ok (mk_AgentResponse (py "azure_openai") (Member GENERAL_KNOWLEDGE)
          [] true None []).
Proof. vm_compute. reflexivity. Qed.



(* ================================================================= *)
(** ** Further properties of the plugins and the orchestrator *)

Section FurtherProperties.

Set Default Proof Using "Type".

Variable json_loads : pystr -> outcome json.
Variable str_lower : pystr -> pystr.
Variable coroutine_repr : pystr.
Variable jwt_decode : pystr -> outcome (dict json).
Variable int_of : json -> outcome Z.
Variable int_of_str : pystr -> outcome Z.
Variable SdkConfig : Type.
Variable load_configuration_from_env : dict pystr -> outcome SdkConfig.

(* ----------------------------------------------------------------- *)
(** *** Text *)

Lemma str_eqb_eq (a b : pystr) : str_eqb a b = true <-> a = b.
Proof.
  revert b. induction a as [| x a IH]; intros [| y b]; cbn [str_eqb];
    try (split; [discriminate | discriminate]); [split; reflexivity |].
  rewrite andb_true_iff, N.eqb_eq, IH. split.
  - intros [-> ->]. reflexivity.
  - intros H. injection H as -> ->. split; reflexivity.
Qed.

Lemma str_eqb_refl (a : pystr) : str_eqb a a = true.
Proof. apply str_eqb_eq. reflexivity. Qed.

Lemma str_eqb_neq (a b : pystr) : a <> b -> str_eqb a b = false.
Proof.
  intros H. destruct (str_eqb a b) eqn:E; [| reflexivity].
  apply str_eqb_eq in E. contradiction.
Qed.

Lemma lstrip_idempotent (s : pystr) : lstrip (lstrip s) = lstrip s.
Proof.
  induction s as [| c s IH]; [reflexivity |].
  cbn [lstrip]. destruct (isspace c) eqn:E; [exact IH |].
  cbn [lstrip]. rewrite E. reflexivity.
Qed.

Lemma lstrip_snoc (w : pystr) (c : N) :
  isspace c = false -> lstrip (w ++ [c]) = lstrip w ++ [c].
Proof.
  intros Hc. induction w as [| x w IH]; cbn [app lstrip].
  - rewrite Hc. reflexivity.
  - destruct (isspace x); [exact IH | reflexivity].
Qed.

(** The text [strip] returns is stripped. *)
Lemma strip_idempotent (s : pystr) : strip (strip s) = strip s.
Proof.
  unfold strip, rstrip.
  destruct (lstrip s) as [| c u] eqn:Hs; [reflexivity |].
  assert (Hc : isspace c = false).
  { destruct (isspace c) eqn:E; [| reflexivity].
    pose proof (lstrip_idempotent s) as H. rewrite Hs in H.
    cbn [lstrip] in H. rewrite E in H.
    assert (Hlen : (List.length (lstrip u) <= List.length u)%nat).
    { clear. induction u as [| x u IH]; cbn [lstrip]; [lia |].
      destruct (isspace x); cbn [List.length]; lia. }
    rewrite H in Hlen. cbn [List.length] in Hlen. lia. }
  cbn [rev]. rewrite (lstrip_snoc _ c Hc), rev_app_distr. cbn [rev app].
  cbn [lstrip]. rewrite Hc.
  cbn [rev]. rewrite (lstrip_snoc _ c Hc), rev_app_distr. cbn [rev app].
  rewrite rev_involutive, lstrip_idempotent. reflexivity.
Qed.

(* ----------------------------------------------------------------- *)
(** *** [_extract_json] *)

Lemma startswith_app (pat rest : pystr) : startswith pat (pat ++ rest) = true.
Proof.
  induction pat as [| p pat IH]; [reflexivity |].
  cbn [app startswith]. rewrite N.eqb_refl. exact IH.
Qed.

Lemma find_none_no_backtick (pat s : pystr) :
  no_backtick s -> find (96%N :: pat) s = None.
Proof.
  induction 1 as [| c s Hc _ IH]; [reflexivity |].
  cbn [find startswith].
  destruct (N.eqb_spec 96 c) as [E | _]; [symmetry in E; contradiction |].
  cbn [andb]. rewrite IH. reflexivity.
Qed.

Lemma find_after_no_backtick (pat u rest : pystr) :
  no_backtick u ->
  find (96%N :: pat) (u ++ (96%N :: pat) ++ rest) = Some (List.length u).
Proof.
  induction 1 as [| c u Hc _ IH].
  - cbn [app find startswith]. rewrite N.eqb_refl, (startswith_app pat rest).
    reflexivity.
  - cbn [app find startswith List.length].
    destruct (N.eqb_spec 96 c) as [E | _]; [symmetry in E; contradiction |].
    cbn [andb]. cbn [app] in IH. rewrite IH. reflexivity.
Qed.

Lemma skipn_past {A} (a b : list A) (n : nat) :
  skipn (List.length a + n) (a ++ b) = skipn n b.
Proof. induction a as [| x a IH]; [reflexivity | exact IH]. Qed.

Lemma skipn_exact {A} (a b : list A) : skipn (List.length a) (a ++ b) = b.
Proof. induction a as [| x a IH]; [reflexivity | exact IH]. Qed.

Lemma firstn_exact {A} (a b : list A) : firstn (List.length a) (a ++ b) = a.
Proof.
  induction a as [| x a IH]; [reflexivity |].
  cbn [List.length app firstn]. rewrite IH. reflexivity.
Qed.

Lemma fence_ticks : fence = (96 :: [96; 96])%N.
Proof. reflexivity. Qed.

Lemma fence_json_ticks : fence_json = (96 :: [96; 96] ++ py "json")%N.
Proof. reflexivity. Qed.

(** X1: whatever the reply, the text handed to [json.loads] has no white space
    at either end. *)
Theorem extract_json_is_stripped (response : pystr) :
  strip (_extract_json response) = _extract_json response.
Proof.
  unfold _extract_json, search_fenced.
  repeat match goal with
         | |- context [if ?b then _ else _] => destruct b
         | |- context [match find ?p ?s with Some _ => _ | None => _ end] =>
             destruct (find p s)
         end;
    apply strip_idempotent.
Qed.

(** X2: a reply without a backtick is decoded as it is, stripped; a reply that
    wraps a text without backticks in a fence tagged [json] is decoded as
    that text, stripped, whatever follows the closing fence. *)
Theorem extract_json_unwraps_fence :
  (forall response, no_backtick response ->
     _extract_json response = strip response)
  /\
  (forall before text after,
     no_backtick before -> no_backtick text ->
     _extract_json (before ++ fence_json ++ text ++ fence ++ after) = strip text).
Proof.
  split.
  - intros response Hplain. unfold _extract_json, contains.
    rewrite fence_json_ticks, fence_ticks.
    rewrite !(find_none_no_backtick _ response Hplain). reflexivity.
  - intros before text after Hbefore Htext.
    unfold _extract_json, contains, search_fenced.
    assert (Hopen : find fence_json (before ++ fence_json ++ text ++ fence ++ after)
                    = Some (List.length before)).
    { rewrite fence_json_ticks. apply find_after_no_backtick. exact Hbefore. }
    rewrite Hopen, skipn_past, skipn_exact.
    assert (Hclose : find fence (text ++ fence ++ after) = Some (List.length text)).
    { rewrite fence_ticks. apply find_after_no_backtick. exact Htext. }
    rewrite Hclose, firstn_exact. reflexivity.
Qed.

(* ----------------------------------------------------------------- *)
(** *** The classifier and [parse_intent_response] *)

(** X3: the classifier absorbs every failure: it returns either the single
    GeneralKnowledge fallback for the query, or the intents made of the
    items of the decoded reply, all of them. *)
Theorem classifier_result_shape (kernel : Kernel) (query : pystr) :
  exists intents,
    _analyze_intent json_loads kernel query = Ok intents /\
    (intents = [Intent_init GENERAL_KNOWLEDGE (JString query) JNull]
     \/
     exists reply data items,
       invoke_prompt kernel (IntentPrompt (JString query)) = Ok reply /\
       json_loads (_extract_json (str_or reply (py "[]"))) = Ok data /\
       iterate data = Ok items /\
       comprehension Intent_of_kwargs items = Ok intents).
Proof.
  rewrite analyze_intent_cases.
  destruct (invoke_prompt kernel (IntentPrompt (JString query))) as [reply | e] eqn:Hr;
    [| eexists; split; [reflexivity | left; reflexivity]].
  destruct (json_loads _) as [data | e] eqn:Hd; cbn [bind];
    [| eexists; split; [reflexivity | left; reflexivity]].
  destruct (iterate data) as [items | e] eqn:Hi; cbn [bind];
    [| eexists; split; [reflexivity | left; reflexivity]].
  destruct (comprehension Intent_of_kwargs items) as [intents | e] eqn:Hc;
    [| eexists; split; [reflexivity | left; reflexivity]].
  exists intents. split; [reflexivity |]. right.
  exists reply, data, items. repeat split; assumption.
Qed.

Lemma Intent_of_kwargs_query (item : json) (intent : Intent) :
  Intent_of_kwargs item = Ok intent ->
  subscript item (py "query") = Ok (query intent).
Proof.
  unfold Intent_of_kwargs. destruct item; try discriminate.
  destruct (negb _); [discriminate |].
  cbn [subscript].
  destruct (dict_get (py "type") fields) as [t |]; [| discriminate].
  destruct (dict_get (py "query") fields) as [q |]; [| discriminate].
  destruct (__post_init__ t); cbn [bind]; [| discriminate].
  intros H. injection H as <-. reflexivity.
Qed.

(** X4: the intents made of a decoded reply stand one for one, in order, for
    its items, each with the query of its item. *)
Theorem classified_intents_follow_items (items : list json) (intents : list Intent) :
  comprehension Intent_of_kwargs items = Ok intents ->
  Forall2 (fun item intent => subscript item (py "query") = Ok (query intent))
          items intents.
Proof.
  revert intents. induction items as [| item items IH]; intros intents.
  - cbn. intros H. injection H as <-. constructor.
  - cbn [comprehension].
    destruct (Intent_of_kwargs item) as [intent |] eqn:Hitem; cbn [bind];
      [| discriminate].
    destruct (comprehension Intent_of_kwargs items) as [rest |]; cbn [bind];
      [| discriminate].
    intros H. injection H as <-. constructor.
    + apply Intent_of_kwargs_query. exact Hitem.
    + apply IH. reflexivity.
Qed.

Lemma IntentType_of_inv (v : json) (t : IntentType) :
  IntentType_of v = Ok t -> v = JString (value t).
Proof.
  unfold IntentType_of. destruct v; try discriminate.
  destruct (List.find (fun t0 => str_eqb (value t0) s) members) as [t0 |] eqn:Hfind;
    [| discriminate].
  intros H. injection H as ->.
  apply find_some in Hfind. destruct Hfind as [_ Heq].
  apply str_eqb_eq in Heq. rewrite Heq. reflexivity.
Qed.

Lemma IntentType_of_value (t : IntentType) : IntentType_of (JString (value t)) = Ok t.
Proof. destruct t; reflexivity. Qed.

(** An object makes an [Intent] for [parse_intent_response] exactly when it
    has a type that is the value of a member and a query. *)
Lemma parse_item_valid (fields : list (pystr * json)) (intent : Intent) :
  parse_item (JObject fields) = Ok intent <->
  exists t q,
    dict_get (py "type") fields = Some (JString (value t)) /\
    dict_get (py "query") fields = Some q /\
    intent = mk_Intent (Member t) q
               (match dict_get (py "confidence") fields with
                | Some c => c
                | None => JNull
                end).
Proof.
  unfold parse_item. cbn [subscript dot_get]. split.
  - destruct (dict_get (py "type") fields) as [v |]; cbn [bind]; [| discriminate].
    destruct (IntentType_of v) as [t |] eqn:Ht; cbn [bind]; [| discriminate].
    destruct (dict_get (py "query") fields) as [q |]; cbn [bind]; [| discriminate].
    intros H. injection H as <-. exists t, q.
    rewrite (IntentType_of_inv v t Ht). repeat split.
  - intros (t & q & -> & -> & ->). cbn [bind].
    rewrite IntentType_of_value. reflexivity.
Qed.

(** X5: over a decoded list of objects, [parse_intent_response] keeps, in
    order, the items that have a query and a type that is the value of a
    member, drops the others one by one, and returns the fallback for the
    original query only when none is left. *)
Theorem parse_intent_response_keeps_valid_items (json_response : pystr)
        (original_query : json) (items : list json) :
  json_loads json_response = Ok (JArray items) ->
  Forall is_object items ->
  parse_intent_response json_loads json_response original_query =
  Ok (let kept := flat_map (fun item => match parse_item item with
                                        | Ok intent => [intent]
                                        | Raise _ => []
                                        end) items in
      if nonempty kept then kept
      else [Intent_init GENERAL_KNOWLEDGE original_query JNull])
  /\
  (forall fields intent,
     parse_item (JObject fields) = Ok intent <->
     exists t q,
       dict_get (py "type") fields = Some (JString (value t)) /\
       dict_get (py "query") fields = Some q /\
       intent = mk_Intent (Member t) q
                  (match dict_get (py "confidence") fields with
                   | Some c => c
                   | None => JNull
                   end)).
Proof.
  intros Hloads Hobj. split.
  - apply parse_intent_response_objects; assumption.
  - apply parse_item_valid.
Qed.

Lemma parse_items_grows (items : list json) (intents result : list Intent) :
  parse_items items intents = Ok result -> exists more, result = intents ++ more.
Proof.
  revert intents. induction items as [| item items IH]; intros intents.
  - cbn. intros H. injection H as <-. exists []. rewrite app_nil_r. reflexivity.
  - cbn [parse_items].
    destruct (parse_item item) as [intent | e]; cbn [bind try_except].
    + intros H. destruct (IH _ H) as [more ->]. exists (intent :: more).
      rewrite <- app_assoc. reflexivity.
    + destruct (isinstance e [KeyError; ValueError]); cbn [bind]; [| discriminate].
      apply IH.
Qed.

(** X6: [parse_intent_response] never returns the empty list. *)
Theorem parse_intent_response_nonempty (json_response : pystr) (original_query : json)
        (intents : list Intent) :
  parse_intent_response json_loads json_response original_query = Ok intents ->
  intents <> [].
Proof.
  unfold parse_intent_response.
  destruct (json_loads json_response) as [data | e]; cbn [bind try_except].
  - destruct data; try (intros H; injection H as <-; discriminate).
    destruct items as [| item items]; cbn [nonempty negb];
      [intros H; injection H as <-; discriminate |].
    destruct (parse_items (item :: items) []) as [parsed | e]; cbn [bind try_except].
    + destruct parsed; cbn [nonempty negb]; intros H; injection H as <-; discriminate.
    + destruct (isinstance e [JSONDecodeError]); [| discriminate].
      intros H; injection H as <-; discriminate.
  - destruct (isinstance e [JSONDecodeError]); [| discriminate].
    intros H; injection H as <-; discriminate.
Qed.

Lemma parse_item_non_object (item : json) :
  ~ is_object item ->
  exists e, parse_item item = Raise e /\ exn_cls e = TypeError.
Proof.
  intros Hno. destruct item; cbn [is_object] in Hno;
    try (exfalso; apply Hno; exact I);
    eexists; split; reflexivity.
Qed.

Lemma parse_items_non_object (items : list json) (item : json) (intents : list Intent) :
  In item items -> ~ is_object item ->
  exists e, parse_items items intents = Raise e /\ exn_cls e = TypeError.
Proof.
  intros Hin Hno. revert intents.
  induction items as [| x items IH]; intros intents; [destruct Hin |].
  cbn [parse_items].
  destruct x as [| b | n | s | xs | fields].
  1-5: eexists; split; reflexivity.
  assert (Hrest : In item items).
  { destruct Hin as [<- | H]; [exfalso; apply Hno; exact I | exact H]. }
  destruct (parse_item (JObject fields)) as [intent | e] eqn:Hp; cbn [bind try_except].
  - apply IH. exact Hrest.
  - rewrite (parse_item_object fields e Hp). cbn [bind]. apply IH. exact Hrest.
Qed.

(** X7: an item that is not an object makes [parse_intent_response] raise a
    [TypeError]: neither of its handlers catches it. *)
Theorem parse_intent_response_non_object_item (json_response : pystr)
        (original_query : json) (items : list json) (item : json) :
  json_loads json_response = Ok (JArray items) ->
  In item items ->
  ~ is_object item ->
  exists e,
    parse_intent_response json_loads json_response original_query = Raise e /\
    exn_cls e = TypeError.
Proof.
  intros Hloads Hin Hno. unfold parse_intent_response.
  rewrite Hloads. cbn [bind].
  destruct items as [| x items]; [destruct Hin |]. cbn [nonempty negb].
  destruct (parse_items_non_object (x :: items) item [] Hin Hno) as (e & -> & Hcls).
  cbn [bind try_except]. unfold isinstance. rewrite Hcls. cbn.
  exists e. split; [reflexivity | exact Hcls].
Qed.

(** X8: what is not a list, the empty list and text that [json.loads] rejects
    with [JSONDecodeError] all give the fallback carrying the original
    query; any other exception of [json.loads] is not caught. *)
Theorem parse_intent_response_fallback (json_response : pystr) (original_query : json) :
  (forall data,
     json_loads json_response = Ok data ->
     (forall items, data = JArray items -> items = []) ->
     parse_intent_response json_loads json_response original_query
     = Ok [Intent_init GENERAL_KNOWLEDGE original_query JNull])
  /\
  (forall e,
     json_loads json_response = Raise e ->
     parse_intent_response json_loads json_response original_query
     = if exn_class_eqb (exn_cls e) JSONDecodeError
       then Ok [Intent_init GENERAL_KNOWLEDGE original_query JNull]
       else Raise e).
Proof.
  unfold parse_intent_response. split.
  - intros data -> Hdata. cbn [bind].
    destruct data; try reflexivity.
    rewrite (Hdata items eq_refl). reflexivity.
  - intros e ->. cbn [bind try_except]. unfold isinstance. cbn [existsb].
    destruct (exn_cls e); reflexivity.
Qed.

(* ----------------------------------------------------------------- *)
(** *** The executor and the Copilot plugin *)

Lemma is_m365_intent_member (intent : Intent) (t : IntentType) :
  type intent = Member t ->
  is_m365_intent intent = negb (IntentType_eqb t GENERAL_KNOWLEDGE).
Proof. intros H. unfold is_m365_intent. rewrite H. destruct t; reflexivity. Qed.

Lemma executor_response_facts (kernel : Kernel) (intent : Intent) (r : AgentResponse) :
  _execute_agent_for_intent str_lower coroutine_repr kernel intent = Ok r ->
  intent_type r = type intent /\
  (success r = true ->
   (exists t, type intent = Member t) /\
   agent r = if is_m365_intent intent then py "m365_copilot" else py "azure_openai").
Proof.
  intros Hexec.
  destruct (execute_agent_for_intent_outcome str_lower coroutine_repr kernel intent)
    as (r' & Hexec' & Hok & Hraise).
  rewrite Hexec in Hexec'. injection Hexec' as <-.
  destruct (dispatch str_lower coroutine_repr kernel intent) as [r0 | e] eqn:Hd.
  - rewrite (Hok r0 eq_refl). clear Hok Hraise.
    destruct (type intent) as [t | v] eqn:Ht.
    + rewrite (is_m365_intent_member intent t Ht).
      destruct (IntentType_eqb t GENERAL_KNOWLEDGE) eqn:Hgk.
      * assert (t = GENERAL_KNOWLEDGE) by (destruct t; try discriminate; reflexivity).
        subst t.
        rewrite (dispatch_general_knowledge str_lower coroutine_repr kernel intent Ht)
          in Hd.
        destruct (invoke_prompt kernel _); [| discriminate].
        injection Hd as <-. split; [reflexivity |].
        intros _. split; [eexists; reflexivity | reflexivity].
      * assert (t <> GENERAL_KNOWLEDGE) by (intros ->; discriminate).
        rewrite (dispatch_m365 str_lower coroutine_repr kernel intent t Ht) in Hd
          by assumption.
        destruct (_call_copilot_chat_api _ _ _ _); [| discriminate].
        injection Hd as <-. split; [reflexivity |].
        intros _. split; [eexists; reflexivity | reflexivity].
    + rewrite (dispatch_other str_lower coroutine_repr kernel intent v Ht) in Hd.
      injection Hd as <-. split; [reflexivity | discriminate].
  - destruct (Hraise e eq_refl) as (t & Ht & ->).
    split; [symmetry; exact Ht | discriminate].
Qed.

(** X9: the response to an intent carries the type of that intent, and a
    successful response is signed by the agent of that type: the Copilot
    plugin for the four M365 types, the Azure OpenAI plugin otherwise. *)
Theorem response_answers_its_intent (kernel : Kernel) (intent : Intent)
        (r : AgentResponse) :
  _execute_agent_for_intent str_lower coroutine_repr kernel intent = Ok r ->
  intent_type r = type intent /\
  (success r = true ->
   agent r = if is_m365_intent intent then py "m365_copilot" else py "azure_openai").
Proof.
  intros H. destruct (executor_response_facts kernel intent r H) as [Htype Hagent].
  split; [exact Htype |]. intros Hs. exact (proj2 (Hagent Hs)).
Qed.

(** X10: with a conversation handle in the store, the Copilot call does not
    create a conversation: its outcome is the same whatever
    [conversations.post] would answer. *)
Theorem stored_conversation_is_reused (ctx : AgentContext) (query : json)
        (h : pystr) (post : outcome (option (option pystr))) :
  stored_conversation_id ctx = Some h ->
  nonempty h = true ->
  chat_api_body coroutine_repr ctx query
  = chat_api_body coroutine_repr
      (mk_AgentContext (Some h) (exchange_token ctx) post (chat_post ctx)) query.
Proof.
  intros Hstored Hh. unfold chat_api_body, _create_copilot_client.
  cbn [stored_conversation_id exchange_token conversations_post chat_post].
  rewrite Hstored. cbn [opt_truthy]. rewrite Hh. reflexivity.
Qed.

(** X11: without an access token nothing is asked of the Graph client, and
    without an identifier for the conversation just created no chat is
    sent: the call raises the [RuntimeError] of the plugin. *)
Theorem copilot_call_preconditions (ctx : AgentContext) (query : json) :
  (forall access_token,
     exchange_token ctx = Ok access_token ->
     opt_truthy access_token = false ->
     chat_api_body coroutine_repr ctx query
     = Raise (mk_exn RuntimeError
                (py "Access token not available. Ensure authentication is configured.")))
  /\
  (forall access_token conversation,
     exchange_token ctx = Ok access_token ->
     opt_truthy access_token = true ->
     opt_truthy (stored_conversation_id ctx) = false ->
     conversations_post ctx = Ok conversation ->
     match conversation with Some id => opt_truthy id | None => false end = false ->
     chat_api_body coroutine_repr ctx query
     = Raise (mk_exn RuntimeError
                (py "Failed to create conversation - no ID returned"))).
Proof.
  split.
  - intros access_token Htok Hfalse.
    unfold chat_api_body, _create_copilot_client.
    rewrite Htok. cbn [bind]. rewrite Hfalse. reflexivity.
  - intros access_token conversation Htok Htrue Hstored Hpost Hid.
    unfold chat_api_body, _create_copilot_client.
    rewrite Htok. cbn [bind]. rewrite Htrue, Hstored, Hpost. cbn [negb bind].
    destruct conversation as [[id |] |]; try reflexivity.
    cbn [opt_truthy] in Hid. rewrite Hid. reflexivity.
Qed.

Lemma chat_api_body_with_handle (ctx : AgentContext) (query : json)
      (access_token : option pystr) (h : pystr) :
  exchange_token ctx = Ok access_token ->
  opt_truthy access_token = true ->
  conversation_handle ctx h ->
  chat_api_body coroutine_repr ctx query
  = try_except
      (response <- chat_post ctx h query ;;
       match response with
       | Messages texts =>
           match rev texts with
           | assistant_message :: _ =>
               Ok (str_obj (if opt_truthy assistant_message
                            then match assistant_message with
                                 | Some t => t
                                 | None => []
                                 end
                            else py "No response content."))
           | [] => Ok (str_obj (py "No response received from Copilot."))
           end
       | _ => Ok (str_obj (py "No response received from Copilot."))
       end)
      [AttributeError]
      (fun _ => Ok (coroutine_object coroutine_repr)).
Proof.
  intros Htok Htrue [Hh Hhandle].
  unfold chat_api_body, _create_copilot_client.
  rewrite Htok. cbn [bind]. rewrite Htrue. cbn [negb bind].
  destruct Hhandle as [Hstored | [Hnone Hpost]].
  - rewrite Hstored. cbn [opt_truthy]. rewrite Hh. reflexivity.
  - rewrite Hnone, Hpost. cbn [negb bind]. rewrite Hh. reflexivity.
Qed.

(** X12: an M365 intent with a [str] query whose chat is answered: the
    content of the response is the text of the last message; it is
    "No response content." when that message has no text, and
    "No response received from Copilot." when there is no message at all. *)
Theorem copilot_answer_text (kernel : Kernel) (intent : Intent) (t : IntentType)
        (q : pystr) (access_token : option pystr) (h : pystr)
        (response : ChatResponse) :
  type intent = Member t ->
  t <> GENERAL_KNOWLEDGE ->
  query intent = JString q ->
  exchange_token (context kernel) = Ok access_token ->
  opt_truthy access_token = true ->
  conversation_handle (context kernel) h ->
  chat_post (context kernel) h (query intent) = Ok response ->
  let answered text :=
    _execute_agent_for_intent str_lower coroutine_repr kernel intent =
    Ok (mk_AgentResponse (py "m365_copilot") (Member t) text true None []) in
  (forall texts text,
     response = Messages (texts ++ [Some text]) -> nonempty text = true ->
     answered text)
  /\
  (forall texts last,
     response = Messages (texts ++ [last]) -> opt_truthy last = false ->
     answered (py "No response content."))
  /\
  (response = NoResponse \/ response = NoMessagesAttribute \/ response = Messages [] ->
   answered (py "No response received from Copilot.")).
Proof.
  intros Ht Hm365 _ Htok Htrue Hhandle Hchat answered. subst answered.
  assert (Hexec : forall text,
             chat_api_body coroutine_repr (context kernel) (query intent)
             = Ok (str_obj text) ->
             _execute_agent_for_intent str_lower coroutine_repr kernel intent =
             Ok (mk_AgentResponse (py "m365_copilot") (Member t) text true None [])).
  { intros text Hbody. unfold _execute_agent_for_intent.
    rewrite try_except_Exception.
    rewrite (dispatch_m365 str_lower coroutine_repr kernel intent t Ht Hm365).
    unfold _call_copilot_chat_api. rewrite try_except_Exception, Hbody.
    rewrite str_or_FunctionResult_str. reflexivity. }
  pose proof (chat_api_body_with_handle (context kernel) (query intent)
                access_token h Htok Htrue Hhandle) as Hbody.
  rewrite Hchat in Hbody. cbn [bind] in Hbody.
  split; [| split].
  - intros texts text -> Hne. apply Hexec. rewrite Hbody.
    rewrite rev_app_distr. cbn [rev app try_except opt_truthy]. rewrite Hne.
    reflexivity.
  - intros texts last -> Hfalse. apply Hexec. rewrite Hbody.
    rewrite rev_app_distr. cbn [rev app try_except]. rewrite Hfalse. reflexivity.
  - intros [-> | [-> | ->]]; apply Hexec; rewrite Hbody; reflexivity.
Qed.

(* ----------------------------------------------------------------- *)
(** *** Executing and synthesizing *)

Lemma comprehension_stops {A B} (f : A -> outcome B) (before after : list A)
      (a : A) (e : exn) :
  (forall x, In x before -> exists b, f x = Ok b) ->
  f a = Raise e ->
  comprehension f (before ++ a :: after) = Raise e.
Proof.
  intros Hbefore Ha. induction before as [| x before IH]; cbn [app comprehension].
  - rewrite Ha. reflexivity.
  - destruct (Hbefore x (or_introl eq_refl)) as [b ->]. cbn [bind].
    rewrite IH; [reflexivity |].
    intros y Hy. apply Hbefore. right. exact Hy.
Qed.

(** X13: in sequential mode nothing guards the executor: the first exception it
    raises ends [_execute_agents], and no response is returned, not even
    those of the intents already executed. *)
Theorem sequential_mode_propagates (execute : Intent -> outcome AgentResponse)
        (before after : list Intent) (intent : Intent) (e : exn)
        (max_calls seconds : Z) :
  (forall i, In i before -> exists r, execute i = Ok r) ->
  execute intent = Raise e ->
  execute_agents_with execute (mk_OrchestrationSettings max_calls seconds false)
    (before ++ intent :: after)
  = Raise e.
Proof.
  intros Hbefore Hintent. unfold execute_agents_with.
  cbn [enable_parallel_execution].
  rewrite run_sequentially_comprehension.
  rewrite (comprehension_stops execute before after intent e Hbefore Hintent).
  reflexivity.
Qed.

Lemma filter_idempotent {A} (f : A -> bool) (l : list A) :
  filter f (filter f l) = filter f l.
Proof.
  induction l as [| x l IH]; [reflexivity |].
  cbn [filter]. destruct (f x) eqn:E; [| exact IH].
  cbn [filter]. rewrite E, IH. reflexivity.
Qed.

(** X14: failed responses take no part in the synthesis: the outcome is the one
    obtained from the successful responses alone. *)
Theorem synthesis_ignores_failed_responses (kernel : Kernel) (original_query : pystr)
        (responses : list AgentResponse) :
  _synthesize_response kernel original_query responses
  = _synthesize_response kernel original_query (filter success responses).
Proof.
  unfold _synthesize_response, format_responses_for_synthesis.
  rewrite filter_idempotent. reflexivity.
Qed.

Lemma format_executed_responses (kernel : Kernel) (intents : list Intent)
      (responses : list AgentResponse) :
  Forall2 (fun i r => _execute_agent_for_intent str_lower coroutine_repr kernel i = Ok r)
          intents responses ->
  exists formatted,
    format_responses_for_synthesis responses = Ok formatted /\
    List.length formatted = List.length (filter success responses).
Proof.
  unfold format_responses_for_synthesis.
  induction 1 as [| i r intents responses Hr _ IH].
  - exists []. split; reflexivity.
  - destruct IH as (formatted & Hf & Hlen). cbn [filter].
    destruct (success r) eqn:Hs; [| exists formatted; split; assumption].
    destruct (executor_response_facts kernel i r Hr) as [Htype Hagent].
    destruct (Hagent Hs) as [[t Ht] _].
    cbn [comprehension]. rewrite Htype, Ht. cbn [dot_value bind].
    rewrite Hf. cbn [bind]. eexists. split; [reflexivity |].
    cbn [List.length]. rewrite Hlen. reflexivity.
Qed.

(** X15: synthesizing the responses of the executor: the prompt lists the
    successful responses and the completion service is asked once.  A
    result that is true is the reply, by its text, also when that text is
    empty; a null (false) result becomes the fallback of the plugin; and
    only an exception of the service is raised. *)
Theorem synthesis_of_executed_responses (kernel : Kernel) (original_query : pystr)
        (intents : list Intent) (responses : list AgentResponse) :
  Forall2 (fun i r => _execute_agent_for_intent str_lower coroutine_repr kernel i = Ok r)
          intents responses ->
  exists formatted,
    format_responses_for_synthesis responses = Ok formatted /\
    List.length formatted = List.length (filter success responses) /\
    _synthesize_response kernel original_query responses
    = match invoke_prompt kernel (SynthesisPrompt (JString original_query) formatted) with
      | Ok reply =>
          Ok (if truthy reply then to_str reply
              else py "I couldn't synthesize a response.")
      | Raise e => Raise (invoke_error kernel e)
      end.
Proof.
  intros Hexec.
  destruct (format_executed_responses kernel intents responses Hexec)
    as (formatted & Hf & Hlen).
  exists formatted. split; [exact Hf | split; [exact Hlen |]].
  unfold _synthesize_response. rewrite Hf. cbn [bind].
  unfold synthesize, kernel_invoke.
  destruct (invoke_prompt kernel _) as [reply | e]; cbn [bind]; [| reflexivity].
  rewrite str_or_FunctionResult_str. reflexivity.
Qed.

(* ----------------------------------------------------------------- *)
(** *** The turn as a whole *)

(** The replies in the trace of the block: none when it raises, the final
    response when it returns. *)
Lemma timed_block_replies (settings : OrchestrationSettings) (kernel : Kernel)
      (user_message : pystr) :
  match snd (timed_block json_loads str_lower coroutine_repr settings kernel
               user_message) with
  | Ok _ =>
      exists final_response,
        filter is_reply
          (fst (timed_block json_loads str_lower coroutine_repr settings kernel
                  user_message))
        = [Sent final_response]
  | Raise _ =>
      filter is_reply
        (fst (timed_block json_loads str_lower coroutine_repr settings kernel
                user_message))
      = []
  end.
Proof.
  unfold timed_block. rewrite tbind_call_ok. cbn [fst snd].
  destruct (_analyze_intent json_loads kernel user_message) as [intents | e].
  - rewrite tbind_call_ok. cbv zeta. cbn [fst snd].
    destruct (comprehension _ (apply_max_agent_calls settings intents)) as [vs | e].
    + rewrite tbind_uncalled_ok.
      destruct (_execute_agents str_lower coroutine_repr settings kernel _) as [rs | e].
      * rewrite tbind_call_ok. cbn [fst snd].
        destruct (_synthesize_response kernel user_message rs) as [final | e].
        -- rewrite tbind_call_ok. cbn [fst snd call]. exists final. reflexivity.
        -- rewrite tbind_call_raise. reflexivity.
      * rewrite tbind_call_raise. reflexivity.
    + reflexivity.
  - rewrite tbind_call_raise. reflexivity.
Qed.

Lemma on_message_activity_accepted (settings : OrchestrationSettings) (kernel : Kernel)
      (t : pystr) :
  nonempty (strip t) = true ->
  (len (strip t) <= MAX_MESSAGE_LENGTH)%Z ->
  on_message_activity json_loads str_lower coroutine_repr settings kernel (Some t)
  = fst (timed_block json_loads str_lower coroutine_repr settings kernel (strip t))
    ++ match snd (timed_block json_loads str_lower coroutine_repr settings kernel
                    (strip t)) with
       | Ok _ => []
       | Raise ex =>
           if isinstance ex [TimeoutError] then
             [Sent (py "The request timed out. Please try a simpler query or try again later.")]
           else
             [Sent (py "Sorry, an error occurred processing your request. Please try again.")]
       end.
Proof.
  intros Hne Hlen. unfold on_message_activity. cbn [opt_truthy].
  assert (Ht : nonempty t = true) by (destruct t; [discriminate Hne | reflexivity]).
  rewrite Ht, Hne. cbn [negb].
  destruct (Z.ltb_spec MAX_MESSAGE_LENGTH (len (strip t))); [lia |].
  destruct (timed_block json_loads str_lower coroutine_repr settings kernel (strip t)).
  reflexivity.
Qed.

Lemma rejected_too_long (settings : OrchestrationSettings) (kernel : Kernel)
      (t : pystr) :
  (MAX_MESSAGE_LENGTH < len (strip t))%Z ->
  exists m,
    on_message_activity json_loads str_lower coroutine_repr settings kernel (Some t)
    = [Sent m].
Proof.
  intros Hlong. unfold on_message_activity. cbn [opt_truthy].
  destruct t as [| c t]; [vm_compute in Hlong; discriminate |].
  cbn [nonempty]. destruct (strip (c :: t)) as [| c' t'] eqn:Hs;
    [vm_compute in Hlong; discriminate |].
  cbn [nonempty negb].
  destruct (Z.ltb_spec MAX_MESSAGE_LENGTH (len (c' :: t'))); [| lia].
  eexists. reflexivity.
Qed.

(** X16: every inbound message gets exactly one reply: a rejection, the
    synthesized response, or one of the two failure messages. *)
Theorem one_reply_per_message (settings : OrchestrationSettings) (kernel : Kernel)
        (text : option pystr) :
  List.length
    (filter is_reply
       (on_message_activity json_loads str_lower coroutine_repr settings kernel text))
  = 1%nat.
Proof.
  destruct text as [t |]; [| reflexivity].
  destruct (nonempty (strip t)) eqn:Hne.
  - destruct (Z.ltb_spec MAX_MESSAGE_LENGTH (len (strip t))) as [Hlong | Hlen].
    + destruct (rejected_too_long settings kernel t Hlong) as [m ->]. reflexivity.
    + rewrite (on_message_activity_accepted settings kernel t Hne Hlen).
      rewrite filter_app, length_app.
      pose proof (timed_block_replies settings kernel (strip t)) as Hreplies.
      destruct (snd (timed_block json_loads str_lower coroutine_repr settings kernel
                       (strip t))) as [u | ex].
      * destruct Hreplies as [final ->]. reflexivity.
      * rewrite Hreplies. destruct (isinstance ex [TimeoutError]); reflexivity.
  - unfold on_message_activity. cbn [opt_truthy].
    destruct (nonempty t); [rewrite Hne |]; reflexivity.
Qed.

(** X17: when the block of an accepted message raises, nothing of what was
    computed is sent: the one reply is the fixed timeout message for a
    [TimeoutError] and the fixed apology for any other exception, whose text
    is not shown. *)
Theorem failed_turn_reply (settings : OrchestrationSettings) (kernel : Kernel)
        (t : pystr) (ex : exn) :
  nonempty (strip t) = true ->
  (len (strip t) <= MAX_MESSAGE_LENGTH)%Z ->
  snd (timed_block json_loads str_lower coroutine_repr settings kernel (strip t))
  = Raise ex ->
  filter is_reply
    (on_message_activity json_loads str_lower coroutine_repr settings kernel (Some t))
  = [Sent (if exn_class_eqb (exn_cls ex) TimeoutError
           then py "The request timed out. Please try a simpler query or try again later."
           else py "Sorry, an error occurred processing your request. Please try again.")].
Proof.
  intros Hne Hlen Hraise.
  rewrite (on_message_activity_accepted settings kernel t Hne Hlen).
  pose proof (timed_block_replies settings kernel (strip t)) as Hreplies.
  rewrite Hraise in Hreplies |- *.
  rewrite filter_app, Hreplies. unfold isinstance. cbn [existsb app].
  destruct (exn_cls ex); reflexivity.
Qed.

Lemma type_values_raise (intents : list Intent) (e : exn) :
  comprehension (fun i => dot_value (type i)) intents = Raise e ->
  exn_cls e = AttributeError.
Proof.
  induction intents as [| i intents IH]; [discriminate |].
  cbn [comprehension]. destruct (type i); cbn [dot_value bind].
  - destruct (comprehension _ intents); cbn [bind]; [discriminate |].
    intros H. injection H as <-. apply IH. reflexivity.
  - intros H. injection H as <-. reflexivity.
Qed.

(** X18: a classified intent whose type is not a member of the enumeration ends
    the turn before anything is executed: the line that logs the detected
    types raises, and the user gets the apology. *)
Theorem ill_typed_intent_aborts_turn (settings : OrchestrationSettings)
        (kernel : Kernel) (t : pystr) (intents : list Intent) (intent : Intent)
        (v : non_str) :
  nonempty (strip t) = true ->
  (len (strip t) <= MAX_MESSAGE_LENGTH)%Z ->
  _analyze_intent json_loads kernel (strip t) = Ok intents ->
  In intent (apply_max_agent_calls settings intents) ->
  type intent = Other v ->
  on_message_activity json_loads str_lower coroutine_repr settings kernel (Some t)
  = [ TimeoutEntered (timeout_seconds settings);
      AnalyzeIntentCalled (strip t);
      Sent (py "Sorry, an error occurred processing your request. Please try again.") ].
Proof.
  intros Hne Hlen Hanalyze Hin Hother.
  rewrite (on_message_activity_accepted settings kernel t Hne Hlen).
  unfold timed_block.
  rewrite tbind_call_ok, Hanalyze, tbind_call_ok. cbv zeta.
  destruct (comprehension_raises (fun i => dot_value (type i))
              (apply_max_agent_calls settings intents) intent
              (mk_exn AttributeError (py "object has no attribute 'value'")))
    as [e He]; [exact Hin | rewrite Hother; reflexivity |].
  rewrite He. cbn [tbind uncalled fst snd app].
  unfold isinstance. rewrite (type_values_raise _ e He). reflexivity.
Qed.

(** X19: the turn of an accepted message, once the classifier has returned
    intents of which those within the limit have a member of [IntentType]
    for type and a [str] for query: the timeout has been entered, the
    classifier called with the stripped message, and the executor is called
    with the limited intents.  After that call the only stage called is the
    synthesizer, with the stripped message and one response for each of the
    limited intents, in order, and the only message sent is the synthesized
    text or one of the two failure messages. *)
Theorem well_typed_turn_trace (settings : OrchestrationSettings) (kernel : Kernel)
        (t : pystr) (intents : list Intent) :
  nonempty (strip t) = true ->
  (len (strip t) <= MAX_MESSAGE_LENGTH)%Z ->
  _analyze_intent json_loads kernel (strip t) = Ok intents ->
  Forall well_typed (apply_max_agent_calls settings intents) ->
  Forall string_query (apply_max_agent_calls settings intents) ->
  exists responses rest,
    Forall2 (fun i r => _execute_agent_for_intent str_lower coroutine_repr kernel i
                        = Ok r)
            (apply_max_agent_calls settings intents) responses /\
    on_message_activity json_loads str_lower coroutine_repr settings kernel (Some t)
    = TimeoutEntered (timeout_seconds settings)
        :: AnalyzeIntentCalled (strip t)
        :: ExecuteAgentsCalled (apply_max_agent_calls settings intents)
        :: rest /\
    Forall (fun ev =>
              ev = SynthesizeResponseCalled (strip t) responses \/
              (exists final_response,
                 _synthesize_response kernel (strip t) responses = Ok final_response /\
                 ev = Sent final_response) \/
              ev = Sent (py "The request timed out. Please try a simpler query or try again later.") \/
              ev = Sent (py "Sorry, an error occurred processing your request. Please try again."))
           rest.
Proof.
  intros Hne Hlen Hanalyze Hlimited _.
  destruct (type_values_logged _ Hlimited) as [values Hvalues].
  destruct (execute_agents_with_total
              (_execute_agent_for_intent str_lower coroutine_repr kernel)
              settings (apply_max_agent_calls settings intents))
    as (responses & Hexec & _ & Hall);
    [intros intent; apply execute_agent_for_intent_total |].
  fold (_execute_agents str_lower coroutine_repr settings kernel
          (apply_max_agent_calls settings intents)) in Hexec.
  exists responses.
  rewrite (on_message_activity_accepted settings kernel t Hne Hlen).
  unfold timed_block.
  rewrite tbind_call_ok, Hanalyze, tbind_call_ok. cbv zeta.
  rewrite Hvalues, tbind_uncalled_ok, Hexec, tbind_call_ok.
  destruct (_synthesize_response kernel (strip t) responses) as [final | ex].
  - rewrite tbind_call_ok. cbn [fst snd call app].
    eexists. split; [exact Hall | split; [reflexivity |]].
    constructor; [left; reflexivity |].
    constructor; [right; left; exists final; split; reflexivity | constructor].
  - rewrite tbind_call_raise. cbn [fst snd app].
    eexists. split; [exact Hall | split; [reflexivity |]].
    constructor; [left; reflexivity |].
    destruct (isinstance ex [TimeoutError]);
      (constructor; [| constructor]); auto.
Qed.

(** X20: how many intents survive the limit: with a limit of zero or more, as
    many as the limit allows; with a negative limit, all but the last ones,
    as a slice does, so that more than none can be executed. *)
Theorem max_agent_calls_length (settings : OrchestrationSettings)
        (intents : list Intent) :
  ((0 <= max_agent_calls settings)%Z ->
   len (apply_max_agent_calls settings intents)
   = Z.min (max_agent_calls settings) (len intents))
  /\
  ((max_agent_calls settings < 0)%Z ->
   apply_max_agent_calls settings intents
   = firstn (Z.to_nat (len intents + max_agent_calls settings)) intents /\
   len (apply_max_agent_calls settings intents)
   = Z.max 0 (len intents + max_agent_calls settings)).
Proof.
  unfold apply_max_agent_calls, slice_to, len. split; intros Hmax.
  - destruct (Z.ltb_spec (max_agent_calls settings) (Z.of_nat (List.length intents))).
    + destruct (Z.leb_spec 0 (max_agent_calls settings)); [| lia].
      rewrite length_firstn. lia.
    + lia.
  - destruct (Z.ltb_spec (max_agent_calls settings) (Z.of_nat (List.length intents)));
      [| lia].
    destruct (Z.leb_spec 0 (max_agent_calls settings)); [lia |].
    split; [reflexivity |]. rewrite length_firstn. lia.
Qed.

(* ----------------------------------------------------------------- *)
(** *** The models *)

(** X21: a member is found again from its value, and only the five values are
    values of members: every other string, and everything that is not a
    string, is refused with [ValueError]. *)
Theorem IntentType_round_trip :
  (forall t, IntentType_of (JString (value t)) = Ok t)
  /\
  (forall s t, IntentType_of (JString s) = Ok t -> s = value t)
  /\
  (forall v, (forall t, v <> JString (value t)) ->
             IntentType_of v = Raise not_a_valid_IntentType).
Proof.
  split; [| split].
  - intros t. destruct t; reflexivity.
  - intros s t. unfold IntentType_of.
    destruct (List.find (fun t0 => str_eqb (value t0) s) members) as [t0 |] eqn:Hfind;
      [| discriminate].
    intros H. injection H as ->.
    apply find_some in Hfind. destruct Hfind as [_ Heq].
    apply str_eqb_eq in Heq. symmetry. exact Heq.
  - intros v Hv. unfold IntentType_of. destruct v; try reflexivity.
    destruct (List.find (fun t0 => str_eqb (value t0) s) members) as [t0 |] eqn:Hfind;
      [| reflexivity].
    apply find_some in Hfind. destruct Hfind as [_ Heq].
    apply str_eqb_eq in Heq. exfalso. apply (Hv t0). rewrite Heq. reflexivity.
Qed.

(** X22: [to_dict] writes the type of a response as the value of its member,
    from which the constructor of the dataclasses finds the member again,
    and the other fields as they are; a response whose type is not a member
    has no dict: [to_dict] raises [AttributeError]. *)
Theorem to_dict_round_trip (r : AgentResponse) :
  match intent_type r with
  | Member t =>
      exists d,
        to_dict r = Ok d /\
        (v <- subscript (JObject d) (py "intent_type") ;; __post_init__ v)
        = Ok (intent_type r) /\
        subscript (JObject d) (py "agent") = Ok (JString (agent r)) /\
        subscript (JObject d) (py "content") = Ok (JString (content r)) /\
        subscript (JObject d) (py "success") = Ok (JBool (success r)) /\
        subscript (JObject d) (py "error")
        = Ok (match error r with Some e => JString e | None => JNull end) /\
        subscript (JObject d) (py "metadata") = Ok (JObject (metadata r))
  | Other _ =>
      exists e, to_dict r = Raise e /\ exn_cls e = AttributeError
  end.
Proof.
  unfold to_dict. destruct (intent_type r) as [t | v]; cbn [dot_value bind].
  - eexists. split; [reflexivity |].
    split; [destruct t; reflexivity | repeat split].
  - eexists. split; reflexivity.
Qed.

(* ----------------------------------------------------------------- *)
(** *** The conversation state store *)

Lemma getitem_setitem {V} (k k' : pystr) (v : V) (d : dict V) :
  getitem k' (setitem k v d) = if str_eqb k k' then Some v else getitem k' d.
Proof.
  induction d as [| [a x] d IH]; cbn [setitem getitem].
  - reflexivity.
  - destruct (str_eqb a k) eqn:Hak; cbn [getitem].
    + apply str_eqb_eq in Hak. subst a.
      destruct (str_eqb k k'); reflexivity.
    + rewrite IH. destruct (str_eqb a k') eqn:Hak'; [| reflexivity].
      apply str_eqb_eq in Hak'. subst a.
      destruct (str_eqb k k') eqn:Hkk'; [| reflexivity].
      apply str_eqb_eq in Hkk'. subst k. rewrite str_eqb_refl in Hak. discriminate.
Qed.

Lemma getitem_delitem {V} (k k' : pystr) (d : dict V) :
  getitem k' (delitem k d) = if str_eqb k k' then None else getitem k' d.
Proof.
  unfold delitem. induction d as [| [a x] d IH]; cbn [filter getitem fst].
  - destruct (str_eqb k k'); reflexivity.
  - destruct (str_eqb a k) eqn:Hak; cbn [negb getitem].
    + rewrite IH. apply str_eqb_eq in Hak. subst a.
      destruct (str_eqb k k'); reflexivity.
    + rewrite IH. destruct (str_eqb a k') eqn:Hak'; [| reflexivity].
      apply str_eqb_eq in Hak'. subst a.
      destruct (str_eqb k k') eqn:Hkk'; [| reflexivity].
      apply str_eqb_eq in Hkk'. subst k. rewrite str_eqb_refl in Hak. discriminate.
Qed.

Lemma get_state_setitem (storage : Storage) (c c' : pystr) (state : dict json) :
  get_state (setitem c state storage) c'
  = if str_eqb c c' then state else get_state storage c'.
Proof.
  unfold get_state. rewrite getitem_setitem. destruct (str_eqb c c'); reflexivity.
Qed.

(** Making sure a conversation has a state, as the writers do first, shows
    to no reader. *)
Lemma get_state_ensured (storage : Storage) (c c' : pystr) :
  get_state (if negb (has_key c storage) then setitem c [] storage else storage) c'
  = get_state storage c'.
Proof.
  unfold has_key. destruct (getitem c storage) as [state |] eqn:Hc; cbn [negb];
    [reflexivity |].
  rewrite get_state_setitem. destruct (str_eqb c c') eqn:Hcc'; [| reflexivity].
  apply str_eqb_eq in Hcc'. subst c'. unfold get_state. rewrite Hc. reflexivity.
Qed.

(** X23: a value that was set is the value read back, under its conversation and
    its key; every other key of every conversation reads as before. *)
Theorem set_value_get_value (storage : Storage) (c k : pystr) (v : json)
        (c' k' : pystr) (default : json) :
  get_value (set_value storage c k v) c' k' default
  = if str_eqb c c' && str_eqb k k' then v
    else get_value storage c' k' default.
Proof.
  unfold get_value, set_value. cbv zeta.
  rewrite get_state_setitem, get_state_ensured.
  destruct (str_eqb c c') eqn:Hcc'; cbn [andb].
  - apply str_eqb_eq in Hcc'. subst c'. rewrite getitem_setitem.
    destruct (str_eqb k k'); reflexivity.
  - rewrite get_state_ensured. reflexivity.
Qed.

Lemma getitem_app {V} (k : pystr) (a b : dict V) :
  getitem k (a ++ b)
  = match getitem k a with Some v => Some v | None => getitem k b end.
Proof.
  induction a as [| [x v] a IH]; cbn [app getitem]; [reflexivity |].
  destruct (str_eqb x k); [reflexivity | exact IH].
Qed.

Lemma getitem_absent {V} (k : pystr) (d : dict V) :
  ~ In k (map fst d) -> getitem k d = None.
Proof.
  induction d as [| [x v] d IH]; cbn [map fst In getitem]; [reflexivity |].
  intros Hnot. destruct (str_eqb x k) eqn:Hx.
  - apply str_eqb_eq in Hx. exfalso. apply Hnot. left. exact Hx.
  - apply IH. intros Hin. apply Hnot. right. exact Hin.
Qed.

Lemma getitem_rev {V} (k : pystr) (d : dict V) :
  NoDup (map fst d) -> getitem k (rev d) = getitem k d.
Proof.
  induction d as [| [x v] d IH]; cbn [map fst rev]; [reflexivity |].
  intros Hnd. inversion Hnd as [| ? ? Hnot Hnd']; subst.
  rewrite getitem_app, (IH Hnd'). cbn [getitem].
  destruct (str_eqb x k) eqn:Hx.
  - apply str_eqb_eq in Hx. subst x. rewrite (getitem_absent k d Hnot). reflexivity.
  - destruct (getitem k d); reflexivity.
Qed.

Lemma getitem_dict_update {V} (k : pystr) (d updates : dict V) :
  getitem k (dict_update d updates)
  = match getitem k (rev updates) with
    | Some v => Some v
    | None => getitem k d
    end.
Proof.
  unfold dict_update. revert d.
  induction updates as [| [x v] updates IH]; intros d; cbn [fold_left rev fst snd];
    [reflexivity |].
  rewrite IH, getitem_app, getitem_setitem. cbn [getitem].
  destruct (getitem k (rev updates)); [reflexivity |].
  destruct (str_eqb x k); reflexivity.
Qed.

(** X24: after [update_state], the keys of [updates] read as [updates] gives
    them and the other keys of the conversation read as before; the other
    conversations are not touched. *)
Theorem update_state_get_value (storage : Storage) (c : pystr) (updates : dict json)
        (c' k : pystr) (default : json) :
  NoDup (map fst updates) ->
  get_value (update_state storage c updates) c' k default
  = if str_eqb c c' then
      match getitem k updates with
      | Some v => v
      | None => get_value storage c k default
      end
    else get_value storage c' k default.
Proof.
  intros Hnd. unfold get_value, update_state. cbv zeta.
  rewrite get_state_setitem, !get_state_ensured.
  destruct (str_eqb c c'); [| reflexivity].
  rewrite getitem_dict_update, (getitem_rev k updates Hnd).
  destruct (getitem k updates); reflexivity.
Qed.

(** X25: [set_state] replaces the state of its conversation and [clear_state]
    empties it, each leaving the other conversations as they are; a
    conversation never written reads as the empty state. *)
Theorem state_replaced_and_cleared (storage : Storage) (c c' : pystr)
        (state : dict json) :
  get_state (set_state storage c state) c'
  = (if str_eqb c c' then state else get_state storage c')
  /\
  get_state (clear_state storage c) c'
  = (if str_eqb c c' then [] else get_state storage c')
  /\
  get_state [] c' = [].
Proof.
  split; [apply get_state_setitem | split; [| reflexivity]].
  unfold clear_state, has_key, get_state.
  destruct (getitem c storage) as [old |] eqn:Hc.
  - rewrite getitem_delitem. destruct (str_eqb c c'); reflexivity.
  - destruct (str_eqb c c') eqn:Hcc'; [| reflexivity].
    apply str_eqb_eq in Hcc'. subst c'. rewrite Hc. reflexivity.
Qed.

(* ----------------------------------------------------------------- *)
(** *** The token wrapper *)

Lemma convert_scopes_appends (scopes converted : list pystr) :
  convert_scopes scopes converted = converted ++ scopes.
Proof.
  revert converted. induction scopes as [| scope scopes IH]; intros converted.
  - cbn. rewrite app_nil_r. reflexivity.
  - cbn [convert_scopes]. rewrite IH, <- app_assoc. reflexivity.
Qed.

(** X26: [get_token] asks the exchange for the scopes as they are given.  When
    the exchange answers, the outcome is the exchanged token with the
    expiry read from its [exp] claim, or a [RuntimeError]; a token without
    that claim is refused with the message of the parsing failure. *)
Theorem get_token_outcomes
        (exchange : list pystr -> outcome (option (option pystr)))
        (scopes : list pystr) (token_response : option (option pystr)) :
  exchange scopes = Ok token_response ->
  match get_token jwt_decode int_of exchange scopes with
  | Ok access =>
      token_response = Some (Some (token access)) /\
      exists decoded exp_claim,
        jwt_decode (token access) = Ok decoded /\
        dict_get (py "exp") decoded = Some exp_claim /\
        int_of exp_claim = Ok (expires_on access)
  | Raise e => exn_cls e = RuntimeError
  end
  /\
  (forall jwt_token decoded,
     token_response = Some (Some jwt_token) -> nonempty jwt_token = true ->
     jwt_decode jwt_token = Ok decoded ->
     dict_get (py "exp") decoded = None ->
     get_token jwt_decode int_of exchange scopes
     = Raise (mk_exn RuntimeError
                (py "Failed to parse JWT token expiration: "
                 ++ py "JWT does not contain an 'exp' claim"))).
Proof.
  intros Hexchange. unfold get_token. cbv zeta.
  rewrite convert_scopes_appends. cbn [app]. rewrite Hexchange. cbn [bind].
  split.
  - destruct token_response as [[jwt_token |] |]; try reflexivity.
    destruct (nonempty jwt_token); cbn [negb]; [| reflexivity].
    rewrite try_except_Exception.
    destruct (jwt_decode jwt_token) as [decoded | e] eqn:Hdec; cbn [bind];
      [| reflexivity].
    destruct (dict_get (py "exp") decoded) as [exp_claim |] eqn:Hexp;
      [| reflexivity].
    destruct exp_claim; try reflexivity;
      match goal with
      | |- context [int_of ?x] =>
          destruct (int_of x) as [n | e] eqn:Hint; cbn [bind]; [| reflexivity];
          split; [reflexivity |];
          exists decoded, x; repeat split; assumption
      end.
  - intros jwt_token decoded -> Hne Hdec Hexp. rewrite Hne. cbn [negb].
    rewrite try_except_Exception, Hdec. cbn [bind]. rewrite Hexp. reflexivity.
Qed.

(* ----------------------------------------------------------------- *)
(** *** Loading the settings *)

Lemma required_unset (environ : dict pystr) (key : pystr) :
  getitem key environ = None ->
  _get_required_env environ key
  = Raise (mk_exn ValueError
             (py "Required environment variable " ++ key ++ py " is not set")).
Proof. intros H. unfold _get_required_env. rewrite H. reflexivity. Qed.

Lemma required_set (environ : dict pystr) (key value : pystr) :
  _get_required_env environ key = Ok value -> getitem key environ = Some value.
Proof.
  unfold _get_required_env. destruct (getitem key environ); [| discriminate].
  intros H. injection H as <-. reflexivity.
Qed.

(** X27: [load_settings] returns no settings when one of the six required
    variables is unset; the settings it returns hold the required variables
    as the environment gives them (an empty value is a value), the two
    integers as [int] reads them from the variable or from the defaults
    ["5"] and ["30"], and parallel execution exactly when the lower-cased
    variable, or its default ["true"], is ["true"]. *)
Theorem load_settings_reads_environment (environ : dict pystr) :
  (forall key,
     In key required_variables -> getitem key environ = None ->
     exists e,
       load_settings int_of_str str_lower SdkConfig load_configuration_from_env environ
       = Raise e)
  /\
  (forall settings,
     load_settings int_of_str str_lower SdkConfig load_configuration_from_env environ
     = Ok settings ->
     getitem (py "AZURE_OPENAI_ENDPOINT") environ
     = Some (endpoint (azure_openai settings)) /\
     getitem (py "AZURE_OPENAI_API_KEY") environ
     = Some (api_key (azure_openai settings)) /\
     getitem (py "AZURE_OPENAI_DEPLOYMENT_NAME") environ
     = Some (deployment_name (azure_openai settings)) /\
     getitem (py "CONNECTIONS__SERVICE_CONNECTION__SETTINGS__CLIENTID") environ
     = Some (client_id (connection settings)) /\
     getitem (py "CONNECTIONS__SERVICE_CONNECTION__SETTINGS__CLIENTSECRET") environ
     = Some (client_secret (connection settings)) /\
     getitem (py "CONNECTIONS__SERVICE_CONNECTION__SETTINGS__TENANTID") environ
     = Some (tenant_id (connection settings)) /\
     int_of_str (getenv environ (py "ORCHESTRATION_MAX_AGENT_CALLS") (py "5"))
     = Ok (max_agent_calls (orchestration settings)) /\
     int_of_str (getenv environ (py "ORCHESTRATION_TIMEOUT_SECONDS") (py "30"))
     = Ok (timeout_seconds (orchestration settings)) /\
     enable_parallel_execution (orchestration settings)
     = str_eqb
         (str_lower (getenv environ (py "ORCHESTRATION_ENABLE_PARALLEL_EXECUTION")
                       (py "true")))
         (py "true")).
Proof.
  split.
  - intros key Hkey Hunset. unfold load_settings. cbv zeta.
    unfold required_variables in Hkey. cbn [In] in Hkey.
    destruct Hkey as [<- | [<- | [<- | [<- | [<- | [<- | []]]]]]];
      rewrite (required_unset environ _ Hunset);
      repeat first
        [ solve [eexists; reflexivity]
        | match goal with
          | |- exists e, bind ?c _ = Raise e => destruct c; cbn [bind]
          end ].
  - intros settings. unfold load_settings. cbv zeta.
    destruct (_get_required_env environ (py "AZURE_OPENAI_ENDPOINT")) as [v1 |] eqn:H1;
      cbn [bind]; [| discriminate].
    destruct (_get_required_env environ (py "AZURE_OPENAI_API_KEY")) as [v2 |] eqn:H2;
      cbn [bind]; [| discriminate].
    destruct (_get_required_env environ (py "AZURE_OPENAI_DEPLOYMENT_NAME"))
      as [v3 |] eqn:H3; cbn [bind]; [| discriminate].
    destruct (int_of_str (getenv environ (py "ORCHESTRATION_MAX_AGENT_CALLS") (py "5")))
      as [n1 |] eqn:Hn1; cbn [bind]; [| discriminate].
    destruct (int_of_str (getenv environ (py "ORCHESTRATION_TIMEOUT_SECONDS") (py "30")))
      as [n2 |] eqn:Hn2; cbn [bind]; [| discriminate].
    destruct (_get_required_env environ
                (py "CONNECTIONS__SERVICE_CONNECTION__SETTINGS__CLIENTID"))
      as [v4 |] eqn:H4; cbn [bind]; [| discriminate].
    destruct (_get_required_env environ
                (py "CONNECTIONS__SERVICE_CONNECTION__SETTINGS__CLIENTSECRET"))
      as [v5 |] eqn:H5; cbn [bind]; [| discriminate].
    destruct (_get_required_env environ
                (py "CONNECTIONS__SERVICE_CONNECTION__SETTINGS__TENANTID"))
      as [v6 |] eqn:H6; cbn [bind]; [| discriminate].
    destruct (load_configuration_from_env environ) as [sdk |]; cbn [bind];
      [| discriminate].
    intros H. injection H as <-.
    cbn [azure_openai connection orchestration endpoint api_key deployment_name
         client_id client_secret tenant_id max_agent_calls timeout_seconds
         enable_parallel_execution].
    repeat split; auto using required_set.
Qed.

End FurtherProperties.

(* ================================================================= *)
(** ** The further properties at sample inputs *)

Lemma extract_json_unwraps_fence_example :
  _extract_json (py "Here it is: " ++ fence_json ++ py " [] " ++ fence ++ py " Done.")
  = py "[]".
Proof.
  apply (proj2 extract_json_unwraps_fence (py "Here it is: ") (py " [] ") (py " Done."));
    unfold no_backtick;
    repeat (apply Forall_cons; [discriminate |]); apply Forall_nil.
Defined.

Lemma classified_intents_follow_items_example :
  Forall2 (fun item intent => subscript item (py "query") = Ok (query intent))
    calendar_and_docker
    [ mk_Intent (Member M365_CALENDAR)
        (JString (py "What meetings do I have tomorrow")) JNull;
      mk_Intent (Member GENERAL_KNOWLEDGE) (JString (py "What is Docker")) JNull ].
Proof.
  apply (classified_intents_follow_items calendar_and_docker).
  vm_compute. reflexivity.
Defined.

Lemma parse_intent_response_keeps_valid_items_example :
  parse_intent_response loads_sample two_items_text (JString (py "original query"))
  = Ok [email_intent].
Proof.
  refine (proj1 (parse_intent_response_keeps_valid_items loads_sample two_items_text
                   (JString (py "original query")) two_items _ _)).
  - vm_compute. reflexivity.
  - repeat constructor.
Defined.

Lemma parse_intent_response_nonempty_example :
  parse_intent_response loads_sample two_items_text (JString (py "original query"))
  = Ok [email_intent]
  /\ [email_intent] <> [].
Proof.
  assert (H : parse_intent_response loads_sample two_items_text
                (JString (py "original query")) = Ok [email_intent])
    by (vm_compute; reflexivity).
  split; [exact H |].
  exact (parse_intent_response_nonempty loads_sample two_items_text
           (JString (py "original query")) [email_intent] H).
Defined.

Lemma parse_intent_response_non_object_item_example :
  exists e,
    parse_intent_response loads_numbers number_list_text (JString (py "original query"))
    = Raise e /\
    exn_cls e = TypeError.
Proof.
  apply (parse_intent_response_non_object_item loads_numbers number_list_text
           (JString (py "original query")) [JNumber (py "5")] (JNumber (py "5"))).
  - vm_compute. reflexivity.
  - left. reflexivity.
  - intros H. exact H.
Defined.

Lemma response_answers_its_intent_example :
  intent_type
    (mk_AgentResponse (py "azure_openai") (Member GENERAL_KNOWLEDGE)
       (py "I'm unable to answer that question at the moment.") true None [])
  = type docker_intent
  /\
  (true = true -> py "azure_openai" = py "azure_openai").
Proof.
  apply (response_answers_its_intent ascii_lower sample_repr
           (null_kernel sample_context) docker_intent
           (mk_AgentResponse (py "azure_openai") (Member GENERAL_KNOWLEDGE)
              (py "I'm unable to answer that question at the moment.") true None [])).
  vm_compute. reflexivity.
Defined.

Lemma copilot_answer_text_example :
  _execute_agent_for_intent ascii_lower sample_repr (null_kernel sample_context)
    email_intent
  = Ok (mk_AgentResponse (py "m365_copilot") (Member M365_EMAIL)
          (py "You have 3 unread emails.") true None []).
Proof.
  apply (proj1 (copilot_answer_text ascii_lower sample_repr
                  (null_kernel sample_context) email_intent M365_EMAIL
                  (py "Check emails")
                  (Some (py "token")) (py "conversation-1")
                  (Messages [Some (py "You have 3 unread emails.")])
                  eq_refl ltac:(discriminate) eq_refl eq_refl eq_refl
                  (conj eq_refl (or_intror (conj eq_refl eq_refl))) eq_refl)
           [] (py "You have 3 unread emails."));
    reflexivity.
Defined.

Lemma stored_conversation_is_reused_example :
  chat_api_body sample_repr returning_context (JString (py "Next meeting?"))
  = chat_api_body sample_repr
      (mk_AgentContext (Some (py "conversation-7")) (exchange_token returning_context)
         (Ok None) (chat_post returning_context))
      (JString (py "Next meeting?")).
Proof.
  apply (stored_conversation_is_reused sample_repr returning_context
           (JString (py "Next meeting?")) (py "conversation-7") (Ok None));
    reflexivity.
Defined.

Lemma sequential_mode_propagates_example :
  execute_agents_with flaky_executor (mk_OrchestrationSettings 5 30 false)
    ([docker_intent] ++ email_intent :: [docker_intent])
  = Raise (mk_exn RuntimeError (py "mailbox offline")).
Proof.
  apply (sequential_mode_propagates flaky_executor [docker_intent] [docker_intent]
           email_intent (mk_exn RuntimeError (py "mailbox offline")) 5%Z 30%Z).
  - intros i [<- | []]. eexists. reflexivity.
  - reflexivity.
Defined.

Lemma synthesis_of_executed_responses_example :
  (exists formatted,
     format_responses_for_synthesis
       [mk_AgentResponse (py "azure_openai") (Member GENERAL_KNOWLEDGE)
          (py "I'm unable to answer that question at the moment.") true None []]
     = Ok formatted /\
     List.length formatted = 1%nat /\
     _synthesize_response (null_kernel sample_context) (py "What is Docker?")
       [mk_AgentResponse (py "azure_openai") (Member GENERAL_KNOWLEDGE)
          (py "I'm unable to answer that question at the moment.") true None []]
     = match invoke_prompt (null_kernel sample_context)
               (SynthesisPrompt (JString (py "What is Docker?")) formatted) with
       | Ok reply =>
           Ok (if truthy reply then to_str reply
               else py "I couldn't synthesize a response.")
       | Raise e => Raise (invoke_error (null_kernel sample_context) e)
       end)
  /\
  _synthesize_response (null_kernel sample_context) (py "What is Docker?")
    [mk_AgentResponse (py "azure_openai") (Member GENERAL_KNOWLEDGE)
       (py "I'm unable to answer that question at the moment.") true None []]
  = Ok (py "I couldn't synthesize a response.")
  /\
  _synthesize_response (replying_kernel [] sample_context) (py "What is Docker?")
    [mk_AgentResponse (py "azure_openai") (Member GENERAL_KNOWLEDGE)
       (py "I'm unable to answer that question at the moment.") true None []]
  = Ok [].
Proof.
  split; [| split; vm_compute; reflexivity].
  apply (synthesis_of_executed_responses ascii_lower sample_repr
           (null_kernel sample_context) (py "What is Docker?") [docker_intent]).
  constructor; [vm_compute; reflexivity | constructor].
Defined.

Lemma failed_turn_reply_example :
  filter is_reply
    (on_message_activity loads_sample ascii_lower sample_repr sample_settings
       (failing_kernel sample_context) (Some (py " hi ")))
  = [Sent (py "Sorry, an error occurred processing your request. Please try again.")].
Proof.
  apply (failed_turn_reply loads_sample ascii_lower sample_repr sample_settings
           (failing_kernel sample_context) (py " hi ")
           (mk_exn Exception (py "connection reset")));
    solve [reflexivity | vm_compute; reflexivity | vm_compute; discriminate].
Defined.

Lemma ill_typed_intent_aborts_turn_example :
  on_message_activity loads_numbers ascii_lower sample_repr sample_settings
    (replying_kernel numbered_type_text sample_context) (Some (py "hello"))
  = [ TimeoutEntered 30;
      AnalyzeIntentCalled (py "hello");
      Sent (py "Sorry, an error occurred processing your request. Please try again.") ].
Proof.
  apply (ill_typed_intent_aborts_turn loads_numbers ascii_lower sample_repr
           sample_settings (replying_kernel numbered_type_text sample_context)
           (py "hello") [numbered_intent] numbered_intent (NNumber (py "5")));
    solve [reflexivity | vm_compute; reflexivity | vm_compute; discriminate
          | left; reflexivity].
Defined.

Lemma well_typed_turn_trace_example :
  exists responses rest,
    Forall2 (fun i r => _execute_agent_for_intent ascii_lower sample_repr
                          (replying_kernel (py "ok") sample_context) i = Ok r)
            [mk_Intent (Member GENERAL_KNOWLEDGE) (JString (py "hi")) JNull]
            responses /\
    on_message_activity loads_sample ascii_lower sample_repr sample_settings
      (replying_kernel (py "ok") sample_context) (Some (py " hi "))
    = TimeoutEntered 30
        :: AnalyzeIntentCalled (py "hi")
        :: ExecuteAgentsCalled
             [mk_Intent (Member GENERAL_KNOWLEDGE) (JString (py "hi")) JNull]
        :: rest /\
    Forall (fun ev =>
              ev = SynthesizeResponseCalled (py "hi") responses \/
              (exists final_response,
                 _synthesize_response (replying_kernel (py "ok") sample_context)
                   (py "hi") responses = Ok final_response /\
                 ev = Sent final_response) \/
              ev = Sent (py "The request timed out. Please try a simpler query or try again later.") \/
              ev = Sent (py "Sorry, an error occurred processing your request. Please try again."))
           rest.
Proof.
  apply (well_typed_turn_trace loads_sample ascii_lower sample_repr sample_settings
           (replying_kernel (py "ok") sample_context) (py " hi ")
           [mk_Intent (Member GENERAL_KNOWLEDGE) (JString (py "hi")) JNull]).
  - reflexivity.
  - vm_compute. discriminate.
  - vm_compute. reflexivity.
  - repeat constructor. eexists. reflexivity.
  - repeat constructor. eexists. reflexivity.
Defined.

Lemma update_state_get_value_example :
  get_value
    (update_state sample_storage (py "conv-1")
       [ (py "topic", JString (py "mail"));
         (py "M365CopilotConversationId", JString (py "xyz")) ])
    (py "conv-1") (py "M365CopilotConversationId") JNull
  = JString (py "xyz").
Proof.
  apply (update_state_get_value sample_storage (py "conv-1")
           [ (py "topic", JString (py "mail"));
             (py "M365CopilotConversationId", JString (py "xyz")) ]
           (py "conv-1") (py "M365CopilotConversationId") JNull).
  cbn [map fst]. constructor.
  - intros [H | []]. vm_compute in H. discriminate H.
  - constructor; [intros [] | constructor].
Defined.

Lemma get_token_outcomes_example :
  exists decoded exp_claim,
    sample_jwt_decode (py "header.payload.signature") = Ok decoded /\
    dict_get (py "exp") decoded = Some exp_claim /\
    sample_int_of exp_claim = Ok 1700000000%Z.
Proof.
  destruct (get_token_outcomes sample_jwt_decode sample_int_of sample_exchange
              [py "https://graph.microsoft.com/.default"]
              (Some (Some (py "header.payload.signature"))) eq_refl)
    as [[_ H] _].
  exact H.
Defined.

Lemma load_settings_reads_environment_example :
  (exists e,
     load_settings sample_int_of_str ascii_lower unit sample_sdk_config [] = Raise e)
  /\
  (exists settings,
     load_settings sample_int_of_str ascii_lower unit sample_sdk_config sample_environ
     = Ok settings /\
     orchestration settings = mk_OrchestrationSettings 5 30 true).
Proof.
  split.
  - apply (proj1 (load_settings_reads_environment ascii_lower sample_int_of_str unit
                    sample_sdk_config [])
             (py "AZURE_OPENAI_ENDPOINT")).
    + left. reflexivity.
    + reflexivity.
  - eexists. split; vm_compute; reflexivity.
Defined.


Lemma parse_intent_response_fallback_example :
  parse_intent_response loads_sample (py "[]") (JString (py "hello"))
  = Ok [Intent_init GENERAL_KNOWLEDGE (JString (py "hello")) JNull]
  /\
  parse_intent_response loads_sample (py "not json") (JString (py "hello"))
  = Ok [Intent_init GENERAL_KNOWLEDGE (JString (py "hello")) JNull].
Proof.
  split.
  - apply (proj1 (parse_intent_response_fallback loads_sample (py "[]")
                    (JString (py "hello")))
             (JArray [])); [reflexivity |].
    intros items H. injection H as <-. reflexivity.
  - exact (proj2 (parse_intent_response_fallback loads_sample (py "not json")
                    (JString (py "hello")))
             (mk_exn JSONDecodeError (py "Expecting value")) eq_refl).
Defined.

Lemma copilot_call_preconditions_example :
  chat_api_body sample_repr signed_out_context (JString (py "Check emails"))
  = Raise (mk_exn RuntimeError
             (py "Access token not available. Ensure authentication is configured.")).
Proof.
  apply (proj1 (copilot_call_preconditions sample_repr signed_out_context
                  (JString (py "Check emails")))
           None);
    reflexivity.
Defined.

Lemma max_agent_calls_length_example :
  apply_max_agent_calls (mk_OrchestrationSettings (-1) 30 true)
    [email_intent; docker_intent]
  = [email_intent]
  /\
  len (apply_max_agent_calls (mk_OrchestrationSettings (-1) 30 true)
         [email_intent; docker_intent])
  = 1%Z.
Proof.
  apply (proj2 (max_agent_calls_length (mk_OrchestrationSettings (-1) 30 true)
                  [email_intent; docker_intent])).
  reflexivity.
Defined.
